(** * Posti Delivery Dates: the update coordinator, the sensor and the setup
    validation, embedded from the Python sources and checked against the
    specification.

    Layout: the Python runtime pieces the sources rely on ([Py]), the
    constants ([Const]), the decoded API reply ([Api]), the two coordinator
    variants ([Coordinator] for [posti_delivery_dates], [LegacyCoordinator]
    for [posti_delivery]), the sensor ([Sensor]) and the config flow
    ([ConfigFlow]); then the lemmas and the theorems of the specification. *)

From Stdlib Require Import ZArith NArith List String Ascii Bool Lia.
Import ListNotations.

(* ================================================================== *)
(** * The Python runtime, as far as the sources use it *)
(* ================================================================== *)

Module Py.

(** A Python [str] is a sequence of Unicode code points. *)
Definition str := list N.

(** An ASCII literal, code point by code point. *)
Fixpoint of_string (s : string) : str :=
  match s with
  | EmptyString => []
  | String a r => N_of_ascii a :: of_string r
  end.

(** ** Character classes *)

(** The code points whose Unicode decimal value is 0 (Unicode 14, the table
    of CPython 3.11); every block of decimal digits is ten consecutive code
    points starting at one of them. *)
Definition decimal_zeros : list N :=
  [48; 1632; 1776; 1984; 2406; 2534; 2662; 2790; 2918; 3046; 3174; 3302;
   3430; 3558; 3664; 3792; 3872; 4160; 4240; 6112; 6160; 6470; 6608; 6784;
   6800; 6992; 7088; 7232; 7248; 42528; 43216; 43264; 43472; 43504; 43600;
   44016; 65296; 66720; 68912; 69734; 69872; 69942; 70096; 70384; 70736;
   70864; 71248; 71360; 71472; 71904; 72016; 72784; 73040; 73120; 92768;
   92864; 93008; 120782; 120792; 120802; 120812; 120822; 123200; 123632;
   125264; 130032]%N.

Fixpoint decimal_in (zeros : list N) (c : N) : option N :=
  match zeros with
  | [] => None
  | z :: zeros' =>
      if ((z <=? c) && (c <=? z + 9))%N then Some (c - z)%N
      else decimal_in zeros' c
  end.

(** [Py_UNICODE_TODECIMAL]: the decimal value of a code point, if it has one. *)
Definition to_decimal (c : N) : option N := decimal_in decimal_zeros c.

(** [str.isdecimal] on one code point; this is what [\d] matches in a [str]
    pattern of [re] compiled without [re.ASCII]. *)
Definition isdecimal (c : N) : bool :=
  match to_decimal c with Some _ => true | None => false end.

(** The ASCII digits [0-9]. *)
Definition is_ascii_digit (c : N) : bool := ((48 <=? c) && (c <=? 57))%N.

(** The ASCII range. *)
Definition is_ascii (c : N) : bool := (c <? 128)%N.

(** [str.isspace] on one code point: the characters [str.strip()] removes. *)
Definition whitespace : list N :=
  [9; 10; 11; 12; 13; 28; 29; 30; 31; 32; 133; 160; 5760; 8192; 8193; 8194;
   8195; 8196; 8197; 8198; 8199; 8200; 8201; 8202; 8232; 8233; 8239; 8287;
   12288]%N.

Definition isspace (c : N) : bool := existsb (N.eqb c) whitespace.

(** ** [str.strip()] *)

Fixpoint lstrip (s : str) : str :=
  match s with
  | [] => []
  | c :: r => if isspace c then lstrip r else s
  end.

Definition rstrip (s : str) : str := rev (lstrip (rev s)).

Definition strip (s : str) : str := rstrip (lstrip s).

(** ** Exceptions *)

Inductive exn : Type :=
| ValueError
| ClientError          (* aiohttp.ClientError *)
| TimeoutError         (* asyncio.TimeoutError and any other exception *)
| UpdateFailed
| InvalidPostalCode
| CannotConnect
| NoData
| UnknownError.

Inductive result (A : Type) : Type :=
| Ok (a : A)
| Raise (e : exn).

Arguments Ok {A} a.
Arguments Raise {A} e.

Definition bind {A B : Type} (m : result A) (k : A -> result B) : result B :=
  match m with
  | Ok a => k a
  | Raise e => Raise e
  end.

(** ** [datetime.date] *)

Record date : Type := mkdate { year : Z; month : Z; day : Z }.

(** Dates compare as the tuples (year, month, day). *)
Definition date_compare (a b : date) : comparison :=
  match (year a ?= year b)%Z with
  | Eq => match (month a ?= month b)%Z with
          | Eq => (day a ?= day b)%Z
          | c => c
          end
  | c => c
  end.

Definition date_lt (a b : date) : bool :=
  match date_compare a b with Lt => true | _ => false end.

Definition date_ge (a b : date) : bool :=
  match date_compare a b with Lt => false | _ => true end.

Definition date_le (a b : date) : bool :=
  match date_compare a b with Gt => false | _ => true end.

Definition is_leap (y : Z) : bool :=
  ((y mod 4 =? 0) && (negb (y mod 100 =? 0) || (y mod 400 =? 0)))%Z.

Definition days_in_month (y m : Z) : Z :=
  if (m =? 2)%Z then (if is_leap y then 29 else 28)%Z
  else if ((m =? 4) || (m =? 6) || (m =? 9) || (m =? 11))%Z then 30%Z
  else 31%Z.

(** The constructor [date(year, month, day)], which raises [ValueError]
    outside MINYEAR..MAXYEAR, 1..12 and 1..days-in-month. *)
Definition make_date (y m d : Z) : result date :=
  if ((1 <=? y) && (y <=? 9999) && (1 <=? m) && (m <=? 12)
      && (1 <=? d) && (d <=? days_in_month y m))%Z
  then Ok (mkdate y m d)
  else Raise ValueError.

(** [date.toordinal()] and the [days] of a difference of two dates. *)
Definition days_before_year (y : Z) : Z :=
  let y1 := (y - 1)%Z in (y1 * 365 + y1 / 4 - y1 / 100 + y1 / 400)%Z.

Definition days_before_month (y m : Z) : Z :=
  fold_left (fun acc k => (acc + days_in_month y k)%Z)
            (map Z.of_nat (seq 1 (Z.to_nat (m - 1)))) 0%Z.

Definition toordinal (d : date) : Z :=
  (days_before_year (year d) + days_before_month (year d) (month d) + day d)%Z.

Definition date_sub_days (a b : date) : Z := (toordinal a - toordinal b)%Z.

(** ** [datetime.strptime(s, "%Y-%m-%d").date()]

    [_strptime] turns the format into the regular expression
    [(?P<Y>\d\d\d\d)-(?P<m>1[0-2]|0[1-9]|[1-9])-(?P<d>3[0-1]|[1-2]\d|0[1-9]|[1-9]| [1-9])],
    matches it at the start of the string, refuses unconverted trailing
    data, converts the groups with [int] and builds the date. *)

Definition cls := N -> bool.

Definition chr_is (a : N) : cls := N.eqb a.
Definition chr_in (lo hi : N) : cls := fun c => ((lo <=? c) && (c <=? hi))%N.

(** A sequence of character classes against the start of [s]: the matched
    prefix and the rest. *)
Fixpoint match_seq (p : list cls) (s : str) : option (str * str) :=
  match p with
  | [] => Some ([], s)
  | k :: p' =>
      match s with
      | [] => None
      | c :: r =>
          if k c then
            match match_seq p' r with
            | Some (m, rest) => Some (c :: m, rest)
            | None => None
            end
          else None
      end
  end.

(** Ordered alternatives with backtracking into the continuation [k]. *)
Fixpoint match_alt {R : Type} (alts : list (list cls)) (s : str)
    (k : str -> str -> option R) : option R :=
  match alts with
  | [] => None
  | a :: alts' =>
      match (match match_seq a s with
             | Some (m, rest) => k m rest
             | None => None
             end) with
      | Some r => Some r
      | None => match_alt alts' s k
      end
  end.

Definition re_Y : list (list cls) := [[isdecimal; isdecimal; isdecimal; isdecimal]].
Definition re_m : list (list cls) :=
  [[chr_is 49; chr_in 48 50]; [chr_is 48; chr_in 49 57]; [chr_in 49 57]].
Definition re_d : list (list cls) :=
  [[chr_is 51; chr_in 48 49]; [chr_in 49 50; isdecimal]; [chr_is 48; chr_in 49 57];
   [chr_in 49 57]; [chr_is 32; chr_in 49 57]].
Definition re_dash : list (list cls) := [[chr_is 45]].

(** The groups Y, m, d and the unconverted rest. *)
Definition match_ymd (s : str) : option (str * str * str * str) :=
  match_alt re_Y s (fun Y r1 =>
  match_alt re_dash r1 (fun _ r2 =>
  match_alt re_m r2 (fun m r3 =>
  match_alt re_dash r3 (fun _ r4 =>
  match_alt re_d r4 (fun d r5 => Some (Y, m, d, r5)))))).

(** [int(s)] on a string of decimal digits with surrounding whitespace. *)
Fixpoint int_digits (acc : Z) (s : str) : option Z :=
  match s with
  | [] => Some acc
  | c :: r =>
      match to_decimal c with
      | Some v => int_digits (10 * acc + Z.of_N v) r
      | None => None
      end
  end.

Definition int (s : str) : result Z :=
  match strip s with
  | [] => Raise ValueError
  | t => match int_digits 0 t with
         | Some z => Ok z
         | None => Raise ValueError
         end
  end.

Definition strptime_ymd (s : str) : result date :=
  match match_ymd s with
  | None => Raise ValueError                    (* does not match format *)
  | Some (Y, m, d, rest) =>
      match rest with
      | _ :: _ => Raise ValueError              (* unconverted data remains *)
      | [] =>
          bind (int Y) (fun y =>
          bind (int m) (fun mo =>
          bind (int d) (fun dd => make_date y mo dd)))
      end
  end.

(** ** [datetime], [timedelta]

    Naive datetimes and timedeltas are exact to the microsecond; both are
    counted in microseconds. *)
Definition timedelta := Z.
Definition datetime := Z.

Definition td_seconds (s : Z) : timedelta := (s * 1000000)%Z.
Definition td_minutes (m : Z) : timedelta := td_seconds (m * 60).
Definition td_hours (h : Z) : timedelta := td_seconds (h * 3600).

(** [int(td.total_seconds())]: whole seconds, truncated towards zero. *)
Definition int_total_seconds (td : timedelta) : Z := Z.quot td 1000000.

(** ** [random.randint(a, b)]

    The random source is an integer of entropy handed to the call; the
    draw is uniform over the inclusive range [a..b]. *)
Definition randint (a b : Z) (entropy : Z) : Z := (a + entropy mod (b - a + 1))%Z.

End Py.

Declare Scope py_scope.
Delimit Scope py_scope with py.
Notation "x <- m ;; k" := (Py.bind m (fun x => k))
  (at level 61, m at next level, right associativity) : py_scope.
Notation "'py' s" := (Py.of_string s%string) (at level 9, s at level 0, only parsing).
Open Scope py_scope.

Import Py.


(* ================================================================== *)
(** * const.py *)
(* ================================================================== *)

Module Const.

Definition DOMAIN : str := py "posti_delivery_dates".

(** [API_URL.format(postal_code=...)] *)
Definition API_URL_format (postal_code : str) : str :=
  py "https://www.posti.fi/maildelivery-api-proxy/?q=" ++ postal_code.

Definition API_TIMEOUT : Z := 10.

Definition DEFAULT_UPDATE_INTERVAL : timedelta := td_hours 12.
Definition INITIAL_RANDOM_OFFSET_MAX : timedelta := td_minutes 30.
Definition UPDATE_JITTER_MAX : timedelta := td_minutes 2.

(** Modelled from the spec: [RETRY_UPDATE_INTERVAL], which coordinator.py
    imports from const.py and const.py does not define.  The specification
    gives it as a fixed retry interval shorter than the base interval, with
    the reference value of one hour. *)
Definition RETRY_UPDATE_INTERVAL : timedelta := td_hours 1.

End Const.

(* ================================================================== *)
(** * The reply of the Posti API, as the sources read it *)
(* ================================================================== *)

Module Api.

(** One element of the JSON array.  A key that is absent is [None]; a
    [deliveryDates] member that is present holds a list of strings (a null
    or otherwise falsy member reads as the empty list). *)
Record entry : Type := mkentry {
  postalCode : option str;
  deliveryDates : option (list str)
}.

(** The decoded body: a list of entries, or any value that is not a list. *)
Inductive body : Type :=
| NotAList
| EntryList (entries : list entry).

(** What [session.get] followed by [response.json()] does: it answers, or
    it raises an exception of class [Exception].  A request that is
    cancelled ([asyncio.CancelledError], which is not an [Exception] and
    which no handler of the sources catches) is not among these outcomes. *)
Inductive reply : Type :=
| RaisesClientError              (* aiohttp.ClientError *)
| RaisesOther                    (* any other Exception: timeout, undecodable body, ... *)
| Response (status : Z) (b : body).

End Api.

(* ================================================================== *)
(** * The date comprehension shared by coordinator.py and sensor.py *)
(* ================================================================== *)

(** [[d for d in dates if datetime.strptime(d, "%Y-%m-%d").date() >= today]]
    (coordinator.py:68, sensor.py:104 and 134).  Every element is parsed;
    the first one that does not parse raises [ValueError]. *)
Fixpoint future_dates (dates : list str) (today : date) : result (list str) :=
  match dates with
  | [] => Ok []
  | d :: rest =>
      p <- strptime_ymd d ;;
      fut <- future_dates rest today ;;
      Ok (if date_ge p today then d :: fut else fut)
  end.

(** The test of the comprehension on an entry that parses. *)
Definition is_future (today : date) (d : str) : bool :=
  match strptime_ymd d with
  | Ok p => date_ge p today
  | Raise _ => false
  end.

(* ================================================================== *)
(** * posti_delivery_dates/coordinator.py *)
(* ================================================================== *)

Module Coordinator.

Import Const Api.

(** The dict kept in [self.data]. *)
Record Snapshot : Type := mkSnapshot {
  delivery_dates : list str;
  last_updated : datetime;
  last_delivery_date : option str
}.

(** The seed written by the config flow; [last_updated] is the timestamp
    that [datetime.fromisoformat] reads back. *)
Record InitialData : Type := mkInitialData {
  init_delivery_dates : list str;
  init_last_updated : datetime
}.

(** The coordinator object: its own attributes and the two it inherits
    from Home Assistant's [DataUpdateCoordinator] and reads or writes
    ([update_interval], [data], [last_update_success]). *)
Record State : Type := mkState {
  postal_code : str;
  _first_update : bool;
  _skip_first_update : bool;
  update_interval : timedelta;
  data : option Snapshot;
  last_update_success : bool
}.

Definition set_first_update (c : State) (b : bool) : State :=
  mkState (postal_code c) b (_skip_first_update c) (update_interval c) (data c)
          (last_update_success c).
Definition set_skip_first_update (c : State) (b : bool) : State :=
  mkState (postal_code c) (_first_update c) b (update_interval c) (data c)
          (last_update_success c).
Definition set_update_interval (c : State) (t : timedelta) : State :=
  mkState (postal_code c) (_first_update c) (_skip_first_update c) t (data c)
          (last_update_success c).
Definition set_data (c : State) (d : option Snapshot) : State :=
  mkState (postal_code c) (_first_update c) (_skip_first_update c)
          (update_interval c) d (last_update_success c).
Definition set_last_update_success (c : State) (b : bool) : State :=
  mkState (postal_code c) (_first_update c) (_skip_first_update c)
          (update_interval c) (data c) b.

(** What one update cycle reads from the outside world. *)
Record Env : Type := mkEnv {
  today : date;              (* date.today() *)
  now : datetime;            (* datetime.now() in _is_data_stale *)
  now_fetched : datetime;    (* datetime.now() when the new dict is built *)
  reply : Api.reply
}.

Definition __init__ (postal : str) (initial_data : option InitialData) : State :=
  let self := mkState postal true false DEFAULT_UPDATE_INTERVAL None true in
  match initial_data with
  | Some i =>
      set_skip_first_update
        (set_data self
           (Some (mkSnapshot (init_delivery_dates i) (init_last_updated i) None)))
        true
  | None => self
  end.

Definition _check_last_delivery (self_data : option Snapshot) (today : date)
    : result (option str) :=
  match self_data with
  | None => Ok None
  | Some d =>
      let last_delivery_date := last_delivery_date d in
      let prev_delivery_dates := delivery_dates d in
      match prev_delivery_dates with
      | [] => Ok last_delivery_date
      | _ :: _ =>
          prev_future_dates <- future_dates prev_delivery_dates today ;;
          match prev_future_dates with
          | [] => Ok last_delivery_date               (* prev_next_delivery is None *)
          | [] :: _ => Ok last_delivery_date          (* the empty string is falsy *)
          | prev_next_delivery :: _ =>
              prev_delivery_date <- strptime_ymd prev_next_delivery ;;
              if date_lt prev_delivery_date today
              then Ok (Some prev_next_delivery)
              else Ok last_delivery_date
          end
      end
  end.

(** A [datetime] is always truthy, so [if not last_updated] never fires on
    a dict the coordinator built. *)
Definition _is_data_stale (self_data : option Snapshot) (now : datetime) : bool :=
  match self_data with
  | None => true
  | Some d =>
      let age := (now - last_updated d)%Z in
      (age >? DEFAULT_UPDATE_INTERVAL)%Z
  end.

(** The body of the [try] block, up to the dict it returns. *)
Definition fetch (self : State) (e : Env) : result Snapshot :=
  match reply e with
  | RaisesClientError => Raise ClientError
  | RaisesOther => Raise TimeoutError
  | Response status b =>
      if negb (status =? 200)%Z then Raise UpdateFailed
      else
        match b with
        | NotAList => Raise UpdateFailed
        | EntryList [] => Raise UpdateFailed
        | EntryList (first_entry :: _) =>
            match deliveryDates first_entry with
            | None => Raise UpdateFailed
            | Some [] => Raise UpdateFailed
            | Some delivery_dates =>
                last_delivery_date <- _check_last_delivery (data self) (today e) ;;
                Ok (mkSnapshot delivery_dates (now_fetched e) last_delivery_date)
            end
        end
  end.

(** What a call of [_async_update_data] leaves behind: the coordinator, the
    value returned or the exception raised, and the URLs requested. *)
Record Outcome : Type := mkOutcome {
  state : State;
  returned : result (option Snapshot);
  requests : list str
}.

Definition fetch_and_return (self : State) (e : Env) : Outcome :=
  let self := if _first_update self then set_first_update self false else self in
  let url := API_URL_format (postal_code self) in
  match fetch self e with
  | Ok d =>
      mkOutcome (set_update_interval self DEFAULT_UPDATE_INTERVAL) (Ok (Some d)) [url]
  | Raise ClientError =>
      mkOutcome (set_update_interval self RETRY_UPDATE_INTERVAL) (Raise UpdateFailed) [url]
  | Raise _ =>
      mkOutcome (set_update_interval self RETRY_UPDATE_INTERVAL) (Raise UpdateFailed) [url]
  end.

Definition _async_update_data (self : State) (e : Env) : Outcome :=
  if _is_data_stale (data self) (now e) && negb (_skip_first_update self) then
    fetch_and_return self e
  else if _skip_first_update self then
    let self := set_first_update (set_skip_first_update self false) false in
    mkOutcome self (Ok (data self)) []
  else
    fetch_and_return self e.

(** Home Assistant's [DataUpdateCoordinator._async_refresh] around it: the
    returned value becomes [self.data] and the success flag is set; an
    exception clears the flag and leaves [self.data] alone. *)
Definition async_refresh (self : State) (e : Env) : State :=
  let o := _async_update_data self e in
  match returned o with
  | Ok d => set_last_update_success (set_data (state o) d) true
  | Raise _ => set_last_update_success (state o) false
  end.

(** Successive cycles. *)
Definition run (self : State) (envs : list Env) : State :=
  fold_left async_refresh envs self.

End Coordinator.

(* ================================================================== *)
(** * posti_delivery_dates/sensor.py *)
(* ================================================================== *)

Module Sensor.

Import Coordinator.

(** The state of the sensor; [coordinator_data] is [self.coordinator.data]. *)
Definition native_value (coordinator_data : option Snapshot) (today : date)
    : result (option str) :=
  match coordinator_data with
  | None => Ok None
  | Some d =>
      match delivery_dates d with
      | [] => Ok None
      | delivery_dates =>
          future_dates <- future_dates delivery_dates today ;;
          Ok (hd_error future_dates)
      end
  end.

(** The attribute dict; [None] is the empty dict. *)
Record Attributes : Type := mkAttributes {
  attr_postal_code : str;
  attr_next_scheduled_date : option str;
  attr_last_scheduled_date : option str;
  attr_days_until_next : option Z;
  attr_delivery_count : nat;
  attr_all_delivery_dates : list str;
  attr_last_updated : option datetime
}.

Definition extra_state_attributes (sensor_postal_code : str)
    (coordinator_data : option Snapshot) (today : date)
    : result (option Attributes) :=
  match coordinator_data with
  | None => Ok None
  | Some d =>
      let delivery_dates := delivery_dates d in
      let last_updated := last_updated d in
      match delivery_dates with
      | [] =>
          Ok (Some (mkAttributes sensor_postal_code None None None 0 []
                      (Some last_updated)))
      | _ :: _ =>
          future_dates <- future_dates delivery_dates today ;;
          let next_delivery := hd_error future_dates in
          let last_scheduled := last_delivery_date d in
          let days_until_next :=
            match next_delivery with
            | None | Some [] => None
            | Some nd =>
                match strptime_ymd nd with
                | Ok next_date => Some (date_sub_days next_date today)
                | Raise _ => None
                end
            end in
          Ok (Some (mkAttributes sensor_postal_code next_delivery last_scheduled
                      days_until_next (List.length delivery_dates) delivery_dates
                      (Some last_updated)))
      end
  end.

Definition available (coordinator : State) : bool :=
  last_update_success coordinator
  || match data coordinator with Some _ => true | None => false end.

End Sensor.

(* ================================================================== *)
(** * posti_delivery/coordinator.py, the earlier variant *)
(* ================================================================== *)

Module LegacyCoordinator.

Import Const Api.

Record Snapshot : Type := mkSnapshot {
  delivery_dates : list str;
  last_updated : datetime
}.

Record State : Type := mkState {
  postal_code : str;
  _first_update : bool;
  _skip_first_update : bool;
  update_interval : timedelta;
  data : option Snapshot;
  last_update_success : bool
}.

Definition set_flags (c : State) (first skip : bool) : State :=
  mkState (postal_code c) first skip (update_interval c) (data c)
          (last_update_success c).
Definition set_update_interval (c : State) (t : timedelta) : State :=
  mkState (postal_code c) (_first_update c) (_skip_first_update c) t (data c)
          (last_update_success c).

Record Env : Type := mkEnv {
  entropy : Z;               (* the random source, read once per cycle *)
  now_fetched : datetime;
  reply : Api.reply
}.

Definition __init__ (postal : str) (initial_data : option (list str * datetime))
    : State :=
  match initial_data with
  | Some (dates, stamp) =>
      mkState postal true true DEFAULT_UPDATE_INTERVAL
              (Some (mkSnapshot dates stamp)) true
  | None => mkState postal true false DEFAULT_UPDATE_INTERVAL None true
  end.

Definition fetch (e : Env) : result Snapshot :=
  match reply e with
  | RaisesClientError => Raise ClientError
  | RaisesOther => Raise TimeoutError
  | Response status b =>
      if negb (status =? 200)%Z then Raise UpdateFailed
      else
        match b with
        | NotAList => Raise UpdateFailed
        | EntryList [] => Raise UpdateFailed
        | EntryList (first_entry :: _) =>
            match deliveryDates first_entry with
            | None => Raise UpdateFailed
            | Some [] => Raise UpdateFailed
            | Some delivery_dates => Ok (mkSnapshot delivery_dates (now_fetched e))
            end
        end
  end.

Record Outcome : Type := mkOutcome {
  state : State;
  returned : result (option Snapshot);
  requests : list str
}.

Definition _async_update_data (self : State) (e : Env) : Outcome :=
  if _skip_first_update self then
    let self := set_flags self false false in
    let offset_seconds :=
      randint 0 (int_total_seconds INITIAL_RANDOM_OFFSET_MAX) (entropy e) in
    let self :=
      set_update_interval self (DEFAULT_UPDATE_INTERVAL + td_seconds offset_seconds)%Z in
    mkOutcome self (Ok (data self)) []
  else
    let self :=
      if _first_update self then
        let offset_seconds :=
          randint 0 (int_total_seconds INITIAL_RANDOM_OFFSET_MAX) (entropy e) in
        set_update_interval (set_flags self false (_skip_first_update self))
          (DEFAULT_UPDATE_INTERVAL + td_seconds offset_seconds)%Z
      else
        let jitter_seconds :=
          randint (- int_total_seconds UPDATE_JITTER_MAX)
                  (int_total_seconds UPDATE_JITTER_MAX) (entropy e) in
        set_update_interval self (DEFAULT_UPDATE_INTERVAL + td_seconds jitter_seconds)%Z in
    let url := API_URL_format (postal_code self) in
    match fetch e with
    | Ok d => mkOutcome self (Ok (Some d)) [url]
    | Raise ClientError => mkOutcome self (Raise UpdateFailed) [url]
    | Raise _ => mkOutcome self (Raise UpdateFailed) [url]
    end.

End LegacyCoordinator.

(* ================================================================== *)
(** * config_flow.py *)
(* ================================================================== *)

Module ConfigFlow.

Import Api.

Record Info : Type := mkInfo {
  title : str;
  postal_code : str;
  delivery_dates : list str
}.

(** [re.match(r"^\d{5}$", s)]: five decimal digits from the start, then the
    end of the string or one final newline. *)
Definition re_match_postal_code (s : str) : bool :=
  match match_seq [isdecimal; isdecimal; isdecimal; isdecimal; isdecimal] s with
  | Some (_, []) => true
  | Some (_, [c]) => (c =? 10)%N
  | _ => false
  end.

(** The body of the [try] block. *)
Definition connect (r : reply) : result (list str) :=
  match r with
  | RaisesClientError => Raise ClientError
  | RaisesOther => Raise TimeoutError
  | Response status b =>
      if negb (status =? 200)%Z then Raise CannotConnect
      else
        match b with
        | NotAList => Raise NoData
        | EntryList [] => Raise NoData
        | EntryList (first_entry :: _) =>
            match postalCode first_entry, deliveryDates first_entry with
            | Some _, Some [] => Raise NoData
            | Some _, Some delivery_dates => Ok delivery_dates
            | _, _ => Raise NoData
            end
        end
  end.

(** [user_postal_code] is [data[CONF_POSTAL_CODE]].  The two handlers
    follow the [try]: [except aiohttp.ClientError], then [except Exception],
    which also receives what the body itself raised. *)
Definition validate_input (user_postal_code : str) (r : reply) : result Info :=
  let postal_code := strip user_postal_code in
  if negb (re_match_postal_code postal_code) then Raise InvalidPostalCode
  else
    match connect r with
    | Ok delivery_dates =>
        Ok (mkInfo (py "Posti " ++ postal_code) postal_code delivery_dates)
    | Raise ClientError => Raise CannotConnect
    | Raise _ => Raise UnknownError
    end.

Inductive FlowResult : Type :=
| ShowForm (errors_base : option str)
| AbortAlreadyConfigured
| Uncaught (e : exn)
| CreateEntry (entry_title : str) (entry_postal_code : str)
              (initial_data : Coordinator.InitialData).

(** [already_configured] is what [_abort_if_unique_id_configured] finds;
    [now] is the [datetime.now()] whose ISO form is stored in the entry. *)
Definition async_step_user (user_input : option str) (r : reply)
    (now : datetime) (already_configured : bool) : FlowResult :=
  match user_input with
  | None => ShowForm None
  | Some input =>
      match validate_input input r with
      | Raise InvalidPostalCode => ShowForm (Some (py "invalid_postal_code"))
      | Raise CannotConnect => ShowForm (Some (py "cannot_connect"))
      | Raise NoData => ShowForm (Some (py "no_data"))
      | Raise UnknownError => ShowForm (Some (py "unknown"))
      | Raise e => Uncaught e
      | Ok info =>
          if already_configured then AbortAlreadyConfigured
          else CreateEntry (title info) (postal_code info)
                 (Coordinator.mkInitialData (delivery_dates info) now)
      end
  end.

End ConfigFlow.

(* ================================================================== *)
(** * The vocabulary of the specification *)
(* ================================================================== *)

Module Spec.

(** [partitionByToday]: the dates strictly before today and those on or
    after it, in source order; an entry that does not parse is in neither. *)
Fixpoint partitionByToday (dates : list str) (today : date) : list str * list str :=
  match dates with
  | [] => ([], [])
  | d :: rest =>
      let (past, future) := partitionByToday rest today in
      match strptime_ymd d with
      | Ok p => if date_lt p today then (d :: past, future) else (past, d :: future)
      | Raise _ => (past, future)
      end
  end.

(** [a] is a strictly earlier date than [b]. *)
Definition earlier (a b : str) : bool :=
  match strptime_ymd a, strptime_ymd b with
  | Ok p, Ok q => date_lt p q
  | _, _ => false
  end.

(** The entry with the least date (the first such entry, on a tie). *)
Fixpoint minimum (dates : list str) : option str :=
  match dates with
  | [] => None
  | d :: rest =>
      match minimum rest with
      | Some m => if earlier m d then Some m else Some d
      | None => Some d
      end
  end.

(** [earliestFuture]: the minimum of the future partition, or empty. *)
Definition earliestFuture (dates : list str) (today : date) : option str :=
  minimum (snd (partitionByToday dates today)).

(** [a] is on or before [b], both being dates. *)
Definition on_or_before (a b : str) : bool :=
  match strptime_ymd a, strptime_ymd b with
  | Ok p, Ok q => date_le p q
  | _, _ => false
  end.

Definition well_formed (d : str) : bool :=
  match strptime_ymd d with Ok _ => true | Raise _ => false end.

(** A list of well-formed dates in ascending order: every entry is on or
    before every later entry. *)
Fixpoint ascending (dates : list str) : bool :=
  match dates with
  | [] => true
  | d :: rest => well_formed d && forallb (on_or_before d) rest && ascending rest
  end.

(** The poll phase of section 3, read off the coordinator's flags. *)
Inductive PollPhase : Type := Seeded | FirstFetch | Steady | Failing.

Definition poll_phase (c : Coordinator.State) : PollPhase :=
  if Coordinator._skip_first_update c then Seeded
  else if Coordinator._first_update c then FirstFetch
  else if Coordinator.last_update_success c then Steady
  else Failing.

(** The fetch failures of section 4.3, on a reply: a transport error, a
    status other than 200, or a body that is empty or malformed. *)
Definition fetch_fails (r : Api.reply) : bool :=
  match r with
  | Api.RaisesClientError | Api.RaisesOther => true
  | Api.Response status b =>
      negb (status =? 200)%Z
      || match b with
         | Api.NotAList | Api.EntryList [] => true
         | Api.EntryList (e :: _) =>
             match Api.deliveryDates e with
             | None | Some [] => true
             | Some (_ :: _) => false
             end
         end
  end.

(** The [lastDeliveryDate] of the coordinator's snapshot, empty without
    a snapshot. *)
Definition lastDeliveryDate (c : Coordinator.State) : option str :=
  match Coordinator.data c with
  | Some d => Coordinator.last_delivery_date d
  | None => None
  end.

(** The steady-state window [base - jitterMax, base + jitterMax]. *)
Definition within_jitter (wait : timedelta) : Prop :=
  (td_hours 12 - td_minutes 2 <= wait <= td_hours 12 + td_minutes 2)%Z.

(** Exactly five characters, each satisfying [digit]. *)
Definition five (digit : N -> bool) (s : str) : bool :=
  (List.length s =? 5)%nat && forallb digit s.

End Spec.

(* ================================================================== *)
(** * Concrete data: the scenarios of section 8 and a few more *)
(* ================================================================== *)

Module Scenario.

Import Coordinator.

Definition may_30 : date := mkdate 2025 5 30.
Definition june_2 : date := mkdate 2025 6 2.

(** Midnight of 2025-06-01 and of 2025-06-02 on the microsecond line that
    starts at midnight of 2025-06-01. *)
Definition t_june_1 : datetime := 0%Z.
Definition t_june_2 : datetime := td_hours 24.

(** Scenario C: the previous snapshot announces 2025-06-01. *)
Definition previous_C : Snapshot := mkSnapshot [py "2025-06-01"] t_june_1 None.

Definition coordinator_C : State :=
  mkState (py "00100") false false Const.DEFAULT_UPDATE_INTERVAL (Some previous_C) true.

Definition reply_C : Api.reply :=
  Api.Response 200
    (Api.EntryList [Api.mkentry (Some (py "00100")) (Some [py "2025-06-10"])]).

Definition env_C : Env := mkEnv june_2 t_june_2 t_june_2 reply_C.

(** Scenario E: two announced dates, in order. *)
Definition snapshot_E : Snapshot :=
  mkSnapshot [py "2025-06-01"; py "2025-06-05"] t_june_1 None.

(** The same two dates, latest first. *)
Definition snapshot_unsorted : Snapshot :=
  mkSnapshot [py "2025-06-05"; py "2025-06-01"] t_june_1 None.

(** A list with one entry that is not a date. *)
Definition snapshot_malformed : Snapshot :=
  mkSnapshot [py "2025-06-10"; py "tomorrow"] t_june_1 None.

(** A seeded coordinator whose seed is thirteen hours old at its first
    cycle. *)
Definition seeded : State :=
  __init__ (py "00100") (Some (mkInitialData [py "2025-06-01"] t_june_1)).

Definition env_13h : Env := mkEnv june_2 (td_hours 13) (td_hours 13) reply_C.

(** Scenario D: the API answers HTTP 500. *)
Definition reply_D : Api.reply := Api.Response 500 Api.NotAList.

Definition env_D : Env := mkEnv june_2 t_june_2 t_june_2 reply_D.

(** A coordinator that has recorded a last delivery. *)
Definition coordinator_delivered : State :=
  mkState (py "00100") false false Const.DEFAULT_UPDATE_INTERVAL
          (Some (mkSnapshot [py "2025-06-10"] t_june_1 (Some (py "2025-05-28")))) true.

(** The earlier coordinator past its first cycle, and a cycle with some
    entropy. *)
Definition legacy_steady : LegacyCoordinator.State :=
  LegacyCoordinator.mkState (py "00100") false false Const.DEFAULT_UPDATE_INTERVAL
    (Some (LegacyCoordinator.mkSnapshot [py "2025-06-01"] t_june_1)) true.

Definition legacy_env : LegacyCoordinator.Env :=
  LegacyCoordinator.mkEnv 1000003 t_june_2 reply_C.

(** Five Arabic-Indic digits, U+0661 to U+0665. *)
Definition arabic_12345 : str := [1633; 1634; 1635; 1636; 1637]%N.

End Scenario.

(* ================================================================== *)
(** * Shapes of data used by the further properties *)
(* ================================================================== *)

Module Shape.

(** A calendar date: what [date.today()] and [strptime] hand out. *)
Definition valid_date (d : date) : bool :=
  ((1 <=? year d) && (year d <=? 9999) && (1 <=? month d) && (month d <=? 12)
   && (1 <=? day d) && (day d <=? days_in_month (year d) (month d)))%Z.

(** The stored delivery dates all parse; vacuous without a snapshot. *)
Definition stored_well_formed (data : option Coordinator.Snapshot) : bool :=
  match data with
  | Some d => forallb Spec.well_formed (Coordinator.delivery_dates d)
  | None => true
  end.

(** The snapshot, when there is one, holds at least one delivery date. *)
Definition dates_present (data : option Coordinator.Snapshot) : bool :=
  match data with
  | Some d => match Coordinator.delivery_dates d with [] => false | _ :: _ => true end
  | None => true
  end.

(** The same cycle with another reading of the clock in [_is_data_stale]. *)
Definition with_now (e : Coordinator.Env) (t : datetime) : Coordinator.Env :=
  Coordinator.mkEnv (Coordinator.today e) t (Coordinator.now_fetched e)
                    (Coordinator.reply e).

(** The window of the one-time initial offset, [base, base + offsetMax]. *)
Definition within_initial_offset (wait : timedelta) : Prop :=
  (td_hours 12 <= wait <= td_hours 12 + td_minutes 30)%Z.

End Shape.

Module Cases.

Import Coordinator.

(** A coordinator whose snapshot holds an entry that is not a date. *)
Definition coordinator_malformed : State :=
  mkState (py "00100") false false Const.DEFAULT_UPDATE_INTERVAL
          (Some Scenario.snapshot_malformed) true.

(** The earlier coordinator past its first cycle meets HTTP 500, with two
    different draws of the random source. *)
Definition legacy_env_D_240 : LegacyCoordinator.Env :=
  LegacyCoordinator.mkEnv 240 Scenario.t_june_2 Scenario.reply_D.

Definition legacy_env_D_0 : LegacyCoordinator.Env :=
  LegacyCoordinator.mkEnv 0 Scenario.t_june_2 Scenario.reply_D.

End Cases.

(* ================================================================== *)
(** * Lemmas on the runtime model *)
(* ================================================================== *)

Lemma date_lt_not_ge (a b : date) : date_lt a b = negb (date_ge a b).
Proof. unfold date_lt, date_ge. now destruct (date_compare a b). Qed.

Lemma int_raises_ValueError (s : str) (e : exn) : int s = Raise e -> e = ValueError.
Proof.
  unfold int. destruct (strip s) as [|c t]; [congruence|].
  destruct (int_digits 0 (c :: t)); congruence.
Qed.

Lemma make_date_raises_ValueError (y m d : Z) (e : exn) :
  make_date y m d = Raise e -> e = ValueError.
Proof. unfold make_date. destruct (_ && _); congruence. Qed.

(** [strptime] raises nothing but [ValueError]. *)
Lemma strptime_raises_ValueError (s : str) (e : exn) :
  strptime_ymd s = Raise e -> e = ValueError.
Proof.
  unfold strptime_ymd.
  destruct (match_ymd s) as [[[[Y m] d] rest]|]; [|congruence].
  destruct rest; [|congruence].
  destruct (int Y) eqn:HY; simpl; [|intros H; inversion H; subst; eauto using int_raises_ValueError].
  destruct (int m) eqn:Hm; simpl; [|intros H; inversion H; subst; eauto using int_raises_ValueError].
  destruct (int d) eqn:Hd; simpl; [|intros H; inversion H; subst; eauto using int_raises_ValueError].
  apply make_date_raises_ValueError.
Qed.

(** ** The comprehension *)

(** On a list whose entries all parse, the comprehension is a filter. *)
Lemma future_dates_well_formed (dates : list str) (today : date) :
  forallb Spec.well_formed dates = true ->
  future_dates dates today = Ok (filter (is_future today) dates).
Proof.
  induction dates as [|d rest IH]; simpl; [reflexivity|].
  unfold Spec.well_formed at 1, is_future at 1.
  destruct (strptime_ymd d) as [p|e]; simpl; [|discriminate].
  intros H. rewrite (IH H). simpl. now destruct (date_ge p today).
Qed.

(** Whatever the comprehension returns parses and is not before today. *)
Lemma future_dates_sound (dates : list str) (today : date) :
  forall fut, future_dates dates today = Ok fut ->
  Forall (fun d => exists p, strptime_ymd d = Ok p /\ date_ge p today = true) fut.
Proof.
  induction dates as [|d rest IH]; simpl; intros fut H.
  - inversion H. constructor.
  - destruct (strptime_ymd d) as [p|e] eqn:Hp; simpl in H; [|discriminate].
    destruct (future_dates rest today) as [f|e]; simpl in H; [|discriminate].
    specialize (IH f eq_refl).
    destruct (date_ge p today) eqn:Hge; inversion H; subst; auto.
    constructor; eauto.
Qed.

(** One entry that does not parse makes the comprehension raise. *)
Lemma future_dates_malformed (dates : list str) (today : date) (d : str) :
  In d dates -> strptime_ymd d = Raise ValueError ->
  future_dates dates today = Raise ValueError.
Proof.
  induction dates as [|x rest IH]; simpl; [tauto|].
  intros [->|Hin] Hd.
  - rewrite Hd. reflexivity.
  - destruct (strptime_ymd x) as [p|e] eqn:Hx; simpl.
    + rewrite (IH Hin Hd). reflexivity.
    + now rewrite (strptime_raises_ValueError _ _ Hx).
Qed.

Lemma date_le_not_lt (a b : date) : date_le a b = true -> date_lt b a = false.
Proof.
  unfold date_le, date_lt, date_compare.
  rewrite (Z.compare_antisym (year a) (year b)),
          (Z.compare_antisym (month a) (month b)),
          (Z.compare_antisym (day a) (day b)).
  destruct (year a ?= year b)%Z; simpl; try congruence;
  destruct (month a ?= month b)%Z; simpl; try congruence;
  destruct (day a ?= day b)%Z; simpl; congruence.
Qed.

(** ** The future partition and its minimum *)

Lemma partition_future_well_formed (dates : list str) (today : date) :
  forallb Spec.well_formed dates = true ->
  snd (Spec.partitionByToday dates today) = filter (is_future today) dates.
Proof.
  induction dates as [|d rest IH]; simpl; [reflexivity|].
  unfold Spec.well_formed at 1, is_future at 1.
  destruct (Spec.partitionByToday rest today) as [past fut].
  destruct (strptime_ymd d) as [p|e]; simpl; [|discriminate].
  intros H. simpl in IH. rewrite <- (IH H), date_lt_not_ge.
  now destruct (date_ge p today).
Qed.

Lemma ascending_well_formed (dates : list str) :
  Spec.ascending dates = true -> forallb Spec.well_formed dates = true.
Proof.
  induction dates as [|d rest IH]; simpl; [reflexivity|].
  intros H. apply andb_prop in H as [H Hr]. apply andb_prop in H as [Hd _].
  now rewrite Hd, (IH Hr).
Qed.

Lemma forallb_filter (A : Type) (f g : A -> bool) (l : list A) :
  forallb f l = true -> forallb f (filter g l) = true.
Proof.
  induction l as [|x r IH]; simpl; [reflexivity|].
  intros H. apply andb_prop in H as [Hx Hr].
  destruct (g x); simpl; [rewrite Hx|]; auto.
Qed.

Lemma ascending_filter (g : str -> bool) (dates : list str) :
  Spec.ascending dates = true -> Spec.ascending (filter g dates) = true.
Proof.
  induction dates as [|d rest IH]; simpl; [reflexivity|].
  intros H. apply andb_prop in H as [H Hr]. apply andb_prop in H as [Hd Hall].
  destruct (g d); simpl; [|auto].
  now rewrite Hd, (forallb_filter _ _ g _ Hall), (IH Hr).
Qed.

(** In an ascending list the first entry is the minimum. *)
Lemma ascending_minimum (dates : list str) :
  Spec.ascending dates = true -> Spec.minimum dates = hd_error dates.
Proof.
  induction dates as [|d rest IH]; simpl; [reflexivity|].
  intros H. apply andb_prop in H as [H Hr]. apply andb_prop in H as [_ Hall].
  rewrite (IH Hr). destruct rest as [|m rest']; simpl; [reflexivity|].
  simpl in Hall. apply andb_prop in Hall as [Hdm _].
  unfold Spec.on_or_before in Hdm. unfold Spec.earlier.
  destruct (strptime_ymd d) as [p|]; [|discriminate].
  destruct (strptime_ymd m) as [q|]; [|discriminate].
  now rewrite (date_le_not_lt _ _ Hdm).
Qed.

(* ================================================================== *)
(** * The reconciler and the derived view *)
(* ================================================================== *)

(** When [_check_last_delivery] returns, it returns the stored
    [last_delivery_date]: the entry it examines comes out of the filter
    [>= today], so the test [< today] on it cannot succeed. *)
Lemma check_last_delivery_keeps (d : Coordinator.Snapshot) (today : date)
    (v : option str) :
  Coordinator._check_last_delivery (Some d) today = Ok v ->
  v = Coordinator.last_delivery_date d.
Proof.
  unfold Coordinator._check_last_delivery.
  destruct (Coordinator.delivery_dates d) as [|x rest]; [congruence|].
  destruct (future_dates (x :: rest) today) as [fut|e] eqn:Hf; simpl; [|discriminate].
  destruct fut as [|n fut']; [congruence|].
  destruct n as [|c n']; [congruence|].
  apply future_dates_sound in Hf. inversion Hf as [|? ? [p [Hp Hge]] _]; subst.
  rewrite Hp. simpl. rewrite date_lt_not_ge, Hge. simpl. congruence.
Qed.

(** C1, on the code: in scenario C the previous snapshot announces
    2025-06-01 and today is 2025-06-02, yet [_check_last_delivery] returns
    the stored value, which is empty, and the cycle that fetches
    2025-06-10 builds a snapshot whose [last_delivery_date] is empty: the
    date that has passed is not recorded. *)
Theorem check_last_delivery_scenario_C :
  Coordinator._check_last_delivery (Some Scenario.previous_C) Scenario.june_2 = Ok None
  /\ Coordinator.data (Coordinator.async_refresh Scenario.coordinator_C Scenario.env_C)
     = Some (Coordinator.mkSnapshot [py "2025-06-10"] Scenario.t_june_2 None).
Proof. split; reflexivity. Qed.

(** C2 as stated fails: with the two dates stored latest first, the sensor
    reports 2025-06-05 while the minimum of the future partition is
    2025-06-01. *)
Lemma native_value_unsorted_not_minimum :
  Sensor.native_value (Some Scenario.snapshot_unsorted) Scenario.may_30
    = Ok (Some (py "2025-06-05"))
  /\ Spec.earliestFuture (Coordinator.delivery_dates Scenario.snapshot_unsorted)
       Scenario.may_30 = Some (py "2025-06-01")
  /\ Sensor.native_value (Some Scenario.snapshot_unsorted) Scenario.may_30
     <> Ok (Spec.earliestFuture
              (Coordinator.delivery_dates Scenario.snapshot_unsorted) Scenario.may_30).
Proof.
  split; [reflexivity | split; [reflexivity | ]].
  intros H. vm_compute in H. discriminate H.
Qed.

(** C2, amended: for every snapshot whose delivery dates are well formed
    and in ascending order, and every today, the sensor's value is the
    minimum of the dates on or after today, or empty when there is none. *)
Theorem native_value_ascending_minimum (d : Coordinator.Snapshot) (today : date) :
  Spec.ascending (Coordinator.delivery_dates d) = true ->
  Sensor.native_value (Some d) today
  = Ok (Spec.earliestFuture (Coordinator.delivery_dates d) today).
Proof.
  intros Hasc. unfold Sensor.native_value, Spec.earliestFuture.
  pose proof (ascending_well_formed _ Hasc) as Hwf.
  rewrite (partition_future_well_formed _ today Hwf).
  rewrite (ascending_minimum _ (ascending_filter (is_future today) _ Hasc)).
  destruct (Coordinator.delivery_dates d) as [|x rest] eqn:Hd; [reflexivity|].
  now rewrite (future_dates_well_formed _ today Hwf).
Qed.

Lemma native_value_ascending_minimum_witness :
  Sensor.native_value (Some Scenario.snapshot_E) Scenario.may_30
  = Ok (Spec.earliestFuture (Coordinator.delivery_dates Scenario.snapshot_E)
          Scenario.may_30).
Proof. apply native_value_ascending_minimum. reflexivity. Defined.

(** C9 as stated fails: one entry that is not a date makes the sensor and
    the reconciler raise, although the partition of the specification
    still holds the well-formed date. *)
Lemma malformed_entry_aborts :
  Sensor.native_value (Some Scenario.snapshot_malformed) Scenario.may_30
    = Raise ValueError
  /\ Coordinator._check_last_delivery (Some Scenario.snapshot_malformed) Scenario.may_30
    = Raise ValueError
  /\ Spec.partitionByToday (Coordinator.delivery_dates Scenario.snapshot_malformed)
       Scenario.may_30 = ([], [py "2025-06-10"]).
Proof. repeat split; reflexivity. Qed.

(** C9, amended: for every list of date strings with at least one entry
    that [strptime] refuses, the filter by today raises [ValueError] and
    with it the sensor's value and the reconciler: no partition and no
    result for the other entries. *)
Theorem malformed_entry_raises (d : Coordinator.Snapshot) (today : date) (bad : str) :
  In bad (Coordinator.delivery_dates d) ->
  strptime_ymd bad = Raise ValueError ->
  future_dates (Coordinator.delivery_dates d) today = Raise ValueError
  /\ Sensor.native_value (Some d) today = Raise ValueError
  /\ Coordinator._check_last_delivery (Some d) today = Raise ValueError.
Proof.
  intros Hin Hbad.
  pose proof (future_dates_malformed _ today _ Hin Hbad) as Hf.
  unfold Sensor.native_value, Coordinator._check_last_delivery.
  destruct (Coordinator.delivery_dates d) as [|x rest]; [contradiction|].
  rewrite Hf. repeat split; reflexivity.
Qed.

Lemma malformed_entry_raises_witness :
  future_dates (Coordinator.delivery_dates Scenario.snapshot_malformed) Scenario.may_30
    = Raise ValueError
  /\ Sensor.native_value (Some Scenario.snapshot_malformed) Scenario.may_30
    = Raise ValueError
  /\ Coordinator._check_last_delivery (Some Scenario.snapshot_malformed) Scenario.may_30
    = Raise ValueError.
Proof.
  apply (malformed_entry_raises Scenario.snapshot_malformed Scenario.may_30
           (py "tomorrow")).
  - simpl. right. left. reflexivity.
  - reflexivity.
Defined.

(* ================================================================== *)
(** * The update cycle *)
(* ================================================================== *)

(** Case analysis on whatever the goal branches on. *)
Ltac split_match :=
  match goal with
  | |- context [match ?x with _ => _ end] => destruct x eqn:?
  | |- context [if ?b then _ else _] => destruct b eqn:?
  end.

Lemma randint_range (a b entropy : Z) :
  (a <= b -> a <= randint a b entropy <= b)%Z.
Proof.
  intros H. unfold randint.
  pose proof (Z.mod_pos_bound entropy (b - a + 1)). lia.
Qed.

(** Every integer of the range is drawn by some entropy. *)
Lemma randint_onto (a b v : Z) :
  (a <= v <= b -> randint a b (v - a) = v)%Z.
Proof. intros H. unfold randint. rewrite Z.mod_small; lia. Qed.

(** The fetching path requests the URL of the postal code, whatever the
    reply. *)
Lemma fetch_and_return_requests (c : Coordinator.State) (e : Coordinator.Env) :
  Coordinator.requests (Coordinator.fetch_and_return c e)
  = [Const.API_URL_format (Coordinator.postal_code c)].
Proof.
  unfold Coordinator.fetch_and_return.
  destruct (Coordinator._first_update c);
    repeat split_match; reflexivity.
Qed.

(** A failing reply makes the [try] block raise. *)
Lemma fetch_fails_raises (c : Coordinator.State) (e : Coordinator.Env) :
  Spec.fetch_fails (Coordinator.reply e) = true ->
  exists x, Coordinator.fetch c e = Raise x.
Proof.
  unfold Spec.fetch_fails, Coordinator.fetch.
  destruct (Coordinator.reply e) as [| |status b]; eauto.
  destruct (status =? 200)%Z; simpl; eauto.
  destruct b as [|[|first rest]]; eauto.
  destruct (Api.deliveryDates first) as [[|x l]|]; eauto. discriminate.
Qed.

(** The fetching path on a raising [try] block: [UpdateFailed], the retry
    interval, nothing else touched but [_first_update]. *)
Lemma fetch_and_return_raise (c : Coordinator.State) (e : Coordinator.Env) (x : exn) :
  Coordinator.fetch c e = Raise x ->
  Coordinator.fetch_and_return c e
  = Coordinator.mkOutcome
      (Coordinator.set_update_interval (Coordinator.set_first_update c false)
         Const.RETRY_UPDATE_INTERVAL)
      (Raise UpdateFailed)
      [Const.API_URL_format (Coordinator.postal_code c)].
Proof.
  intros H. unfold Coordinator.fetch_and_return.
  assert (Hc : (if Coordinator._first_update c
                then Coordinator.set_first_update c false else c)
               = Coordinator.set_first_update c false).
  { destruct c as [p f s u d l]; destruct f; reflexivity. }
  rewrite Hc.
  assert (Hf : Coordinator.fetch (Coordinator.set_first_update c false) e
               = Coordinator.fetch c e) by reflexivity.
  rewrite Hf, H. destruct x; reflexivity.
Qed.

(** A cycle never raises anything but [UpdateFailed], and a cycle that
    raises leaves [data] as it was. *)
Lemma refresh_raise_keeps_data (c : Coordinator.State) (e : Coordinator.Env) (x : exn) :
  Coordinator.returned (Coordinator._async_update_data c e) = Raise x ->
  Coordinator.data (Coordinator.async_refresh c e) = Coordinator.data c
  /\ Coordinator.postal_code (Coordinator.async_refresh c e) = Coordinator.postal_code c.
Proof.
  unfold Coordinator.async_refresh. intros H. rewrite H.
  unfold Coordinator._async_update_data, Coordinator.fetch_and_return in *.
  destruct c as [p f s u d l]; simpl in *.
  repeat split_match; simpl in *; try discriminate; split; reflexivity.
Qed.

(** A cycle on a failing reply leaves [data] as it was: it either skips
    the fetch or raises. *)
Lemma refresh_fails_keeps_data (c : Coordinator.State) (e : Coordinator.Env) :
  Spec.fetch_fails (Coordinator.reply e) = true ->
  Coordinator.data (Coordinator.async_refresh c e) = Coordinator.data c
  /\ Coordinator.postal_code (Coordinator.async_refresh c e) = Coordinator.postal_code c.
Proof.
  intros Hfail. destruct (fetch_fails_raises c e Hfail) as [x Hx].
  pose proof (fetch_and_return_raise c e x Hx) as Hr.
  unfold Coordinator.async_refresh, Coordinator._async_update_data.
  rewrite Hr.
  destruct c as [p f s u d l]; simpl.
  destruct (Coordinator._is_data_stale d (Coordinator.now e)), s; simpl;
    split; reflexivity.
Qed.

(** A successful [try] block carries the stored [last_delivery_date] over. *)
Lemma fetch_ok_last_delivery (c : Coordinator.State) (e : Coordinator.Env)
    (d new : Coordinator.Snapshot) :
  Coordinator.data c = Some d ->
  Coordinator.fetch c e = Ok new ->
  Coordinator.last_delivery_date new = Coordinator.last_delivery_date d.
Proof.
  intros Hd. unfold Coordinator.fetch. rewrite Hd.
  destruct (Coordinator.reply e) as [| |status b]; try discriminate.
  destruct (status =? 200)%Z; cbn [negb]; [|discriminate].
  destruct b as [|[|first rest]]; try discriminate.
  destruct (Api.deliveryDates first) as [[|x l]|]; try discriminate.
  destruct (Coordinator._check_last_delivery (Some d) (Coordinator.today e))
    as [v|err] eqn:Hv; cbn [bind]; [|discriminate].
  intros H. inversion H; subst; cbn [Coordinator.last_delivery_date].
  exact (check_last_delivery_keeps _ _ _ Hv).
Qed.

(** One cycle, of any kind, keeps a recorded last delivery. *)
Lemma refresh_keeps_last_delivery (c : Coordinator.State) (e : Coordinator.Env)
    (v : str) :
  Spec.lastDeliveryDate c = Some v ->
  Spec.lastDeliveryDate (Coordinator.async_refresh c e) = Some v.
Proof.
  unfold Spec.lastDeliveryDate.
  destruct (Coordinator.data c) as [d|] eqn:Hd; [|discriminate].
  intros Hv.
  assert (Hfetch : forall c', Coordinator.data c' = Some d ->
            match Coordinator.data
                    (match Coordinator.returned (Coordinator.fetch_and_return c' e) with
                     | Ok r => Coordinator.set_last_update_success
                                 (Coordinator.set_data
                                    (Coordinator.state (Coordinator.fetch_and_return c' e)) r) true
                     | Raise _ => Coordinator.set_last_update_success
                                    (Coordinator.state (Coordinator.fetch_and_return c' e)) false
                     end) with
            | Some d' => Coordinator.last_delivery_date d'
            | None => None
            end = Some v).
  { intros c' Hd'. unfold Coordinator.fetch_and_return.
    set (c1 := if Coordinator._first_update c'
               then Coordinator.set_first_update c' false else c').
    assert (Hd1 : Coordinator.data c1 = Some d).
    { unfold c1. destruct (Coordinator._first_update c'); simpl; exact Hd'. }
    destruct (Coordinator.fetch c1 e) as [new|x] eqn:Hf.
    - simpl. now rewrite (fetch_ok_last_delivery _ _ _ _ Hd1 Hf).
    - destruct x; simpl; rewrite Hd1; exact Hv. }
  unfold Coordinator.async_refresh, Coordinator._async_update_data.
  destruct (Coordinator._is_data_stale (Coordinator.data c) (Coordinator.now e)
            && negb (Coordinator._skip_first_update c)); [exact (Hfetch c Hd)|].
  destruct (Coordinator._skip_first_update c); [|exact (Hfetch c Hd)].
  simpl. rewrite Hd. exact Hv.
Qed.

(** C3 as stated fails: a seeded coordinator whose seed is thirteen hours
    old is stale at its first cycle, and that cycle requests nothing and
    returns the seed. *)
Lemma seeded_stale_cycle_skips_fetch :
  Coordinator._is_data_stale (Coordinator.data Scenario.seeded)
    (Coordinator.now Scenario.env_13h) = true
  /\ Coordinator.requests (Coordinator._async_update_data Scenario.seeded Scenario.env_13h)
     = []
  /\ Coordinator.returned (Coordinator._async_update_data Scenario.seeded Scenario.env_13h)
     = Ok (Coordinator.data Scenario.seeded).
Proof. repeat split; reflexivity. Qed.

(** C3, amended: for every coordinator whose cached snapshot is older
    than the base interval, the cycle requests the API exactly when the
    first-fetch skip is not pending; while the skip is pending it requests
    nothing and returns the cached snapshot, whatever the age. *)
Theorem stale_cycle_fetches_unless_skip_pending
    (c : Coordinator.State) (e : Coordinator.Env) (d : Coordinator.Snapshot) :
  Coordinator.data c = Some d ->
  (Coordinator.now e - Coordinator.last_updated d > Const.DEFAULT_UPDATE_INTERVAL)%Z ->
  Coordinator.requests (Coordinator._async_update_data c e)
  = (if Coordinator._skip_first_update c then []
     else [Const.API_URL_format (Coordinator.postal_code c)])
  /\ (Coordinator._skip_first_update c = true ->
      Coordinator.returned (Coordinator._async_update_data c e) = Ok (Some d)).
Proof.
  intros Hd Hage. unfold Coordinator._async_update_data.
  assert (Hstale : Coordinator._is_data_stale (Coordinator.data c) (Coordinator.now e) = true).
  { rewrite Hd. unfold Coordinator._is_data_stale. apply Z.gtb_lt. lia. }
  rewrite Hstale.
  destruct (Coordinator._skip_first_update c); simpl.
  - split; [reflexivity|]. intros _. now rewrite Hd.
  - split; [apply fetch_and_return_requests | discriminate].
Qed.

Lemma stale_cycle_fetches_unless_skip_pending_witness :
  Coordinator.requests
    (Coordinator._async_update_data Scenario.coordinator_C Scenario.env_13h)
  = [py "https://www.posti.fi/maildelivery-api-proxy/?q=00100"]
  /\ Coordinator.requests (Coordinator._async_update_data Scenario.seeded Scenario.env_13h)
     = []
  /\ Coordinator.returned (Coordinator._async_update_data Scenario.seeded Scenario.env_13h)
     = Ok (Some Scenario.previous_C).
Proof.
  split; [|split].
  - apply (proj1 (stale_cycle_fetches_unless_skip_pending Scenario.coordinator_C
                    Scenario.env_13h Scenario.previous_C eq_refl eq_refl)).
  - apply (proj1 (stale_cycle_fetches_unless_skip_pending Scenario.seeded
                    Scenario.env_13h Scenario.previous_C eq_refl eq_refl)).
  - apply (proj2 (stale_cycle_fetches_unless_skip_pending Scenario.seeded
                    Scenario.env_13h Scenario.previous_C eq_refl eq_refl)).
    reflexivity.
Defined.

(** C4: past the first cycle, the wait scheduled by a fetching cycle lies
    within two minutes of twelve hours, for every draw of the random
    source: in the earlier coordinator, which adds the drawn jitter, and in
    the current one, which schedules the base interval after every
    successful fetch. *)
Theorem steady_wait_within_jitter :
  (forall (c : LegacyCoordinator.State) (e : LegacyCoordinator.Env),
      LegacyCoordinator._first_update c = false ->
      LegacyCoordinator._skip_first_update c = false ->
      Spec.within_jitter
        (LegacyCoordinator.update_interval
           (LegacyCoordinator.state (LegacyCoordinator._async_update_data c e))))
  /\
  (forall (c : Coordinator.State) (e : Coordinator.Env) (new : Coordinator.Snapshot),
      Coordinator.returned (Coordinator._async_update_data c e) = Ok (Some new) ->
      Coordinator.requests (Coordinator._async_update_data c e) <> [] ->
      Spec.within_jitter (Coordinator.update_interval (Coordinator.async_refresh c e))).
Proof.
  split.
  - intros c e Hfirst Hskip. unfold LegacyCoordinator._async_update_data.
    rewrite Hfirst, Hskip.
    assert (Hj : int_total_seconds Const.UPDATE_JITTER_MAX = 120%Z) by reflexivity.
    rewrite Hj.
    pose proof (randint_range (-120) 120 (LegacyCoordinator.entropy e)) as Hr.
    assert (Hw : Spec.within_jitter
                   (Const.DEFAULT_UPDATE_INTERVAL
                    + td_seconds (randint (-120) 120 (LegacyCoordinator.entropy e)))%Z).
    { unfold Spec.within_jitter, Const.DEFAULT_UPDATE_INTERVAL, td_hours, td_minutes,
        td_seconds. lia. }
    destruct (LegacyCoordinator.fetch e) as [s|[]];
      cbn [LegacyCoordinator.state LegacyCoordinator.update_interval
           LegacyCoordinator.set_update_interval]; exact Hw.
  - intros c e new Hret Hreq. unfold Coordinator.async_refresh. rewrite Hret.
    revert Hret Hreq. unfold Coordinator._async_update_data.
    assert (Hfetch :
      Coordinator.returned (Coordinator.fetch_and_return c e) = Ok (Some new) ->
      Spec.within_jitter
        (Coordinator.update_interval
           (Coordinator.set_last_update_success
              (Coordinator.set_data
                 (Coordinator.state (Coordinator.fetch_and_return c e)) (Some new)) true))).
    { unfold Coordinator.fetch_and_return.
      destruct (Coordinator.fetch _ e) as [s|[]];
        cbn [Coordinator.returned Coordinator.state Coordinator.update_interval
             Coordinator.set_update_interval Coordinator.set_data
             Coordinator.set_last_update_success]; try discriminate.
      intros _. unfold Spec.within_jitter, Const.DEFAULT_UPDATE_INTERVAL, td_hours,
        td_minutes, td_seconds. lia. }
    destruct (Coordinator._is_data_stale (Coordinator.data c) (Coordinator.now e)
              && negb (Coordinator._skip_first_update c)); [auto|].
    destruct (Coordinator._skip_first_update c); [|auto].
    simpl. intros _ H. now contradiction H.
Qed.

Lemma steady_wait_within_jitter_witness :
  Spec.within_jitter
    (LegacyCoordinator.update_interval
       (LegacyCoordinator.state
          (LegacyCoordinator._async_update_data Scenario.legacy_steady Scenario.legacy_env)))
  /\ Spec.within_jitter
       (Coordinator.update_interval
          (Coordinator.async_refresh Scenario.coordinator_C Scenario.env_C)).
Proof.
  split.
  - apply (proj1 steady_wait_within_jitter); reflexivity.
  - apply (proj2 steady_wait_within_jitter Scenario.coordinator_C Scenario.env_C
             (Coordinator.mkSnapshot [py "2025-06-10"] Scenario.t_june_2 None)).
    + reflexivity.
    + discriminate.
Defined.

(** A failing reply makes the [try] block of the earlier coordinator
    raise. *)
Lemma legacy_fetch_fails_raises (e : LegacyCoordinator.Env) :
  Spec.fetch_fails (LegacyCoordinator.reply e) = true ->
  exists x, LegacyCoordinator.fetch e = Raise x.
Proof.
  unfold Spec.fetch_fails, LegacyCoordinator.fetch.
  destruct (LegacyCoordinator.reply e) as [| |status b]; eauto.
  destruct (status =? 200)%Z; simpl; eauto.
  destruct b as [|[|first rest]]; eauto.
  destruct (Api.deliveryDates first) as [[|x l]|]; eauto. discriminate.
Qed.

(** C5 as stated fails on the earlier coordinator: past its first cycle,
    a cycle that meets HTTP 500 raises [UpdateFailed] and leaves the wait
    at twelve hours plus the drawn jitter.  With one draw that is twelve
    hours and two minutes, which is not the retry interval and not below
    the base interval; with another draw it is a different wait. *)
Lemma legacy_failed_fetch_is_not_retried :
  Spec.fetch_fails (LegacyCoordinator.reply Cases.legacy_env_D_240) = true
  /\ LegacyCoordinator.returned
       (LegacyCoordinator._async_update_data Scenario.legacy_steady Cases.legacy_env_D_240)
     = Raise UpdateFailed
  /\ LegacyCoordinator.update_interval
       (LegacyCoordinator.state
          (LegacyCoordinator._async_update_data Scenario.legacy_steady Cases.legacy_env_D_240))
     = (td_hours 12 + td_minutes 2)%Z
  /\ LegacyCoordinator.update_interval
       (LegacyCoordinator.state
          (LegacyCoordinator._async_update_data Scenario.legacy_steady Cases.legacy_env_D_240))
     <> Const.RETRY_UPDATE_INTERVAL
  /\ ~ (LegacyCoordinator.update_interval
          (LegacyCoordinator.state
             (LegacyCoordinator._async_update_data Scenario.legacy_steady
                Cases.legacy_env_D_240))
        < Const.DEFAULT_UPDATE_INTERVAL)%Z
  /\ LegacyCoordinator.update_interval
       (LegacyCoordinator.state
          (LegacyCoordinator._async_update_data Scenario.legacy_steady Cases.legacy_env_D_0))
     = (td_hours 12 - td_minutes 2)%Z.
Proof.
  split; [reflexivity|]. split; [reflexivity|]. split; [reflexivity|].
  split; [|split; [|reflexivity]].
  - intros H. vm_compute in H. discriminate H.
  - intros H. vm_compute in H. discriminate H.
Qed.

(** C5, amended: in the current coordinator every fetch failure (a
    transport error, a status other than 200, an empty or malformed body)
    leaves the coordinator in the Failing phase with the fixed retry
    interval scheduled, which is shorter than the base interval, and no
    random draw enters the cycle.  In the earlier coordinator a fetch
    failure raises [UpdateFailed] and sets no retry interval: the wait is
    the one scheduled before the request, the base interval plus the drawn
    jitter, or plus the drawn initial offset on the first cycle. *)
Theorem failed_fetch_wait_by_coordinator :
  (forall (c : Coordinator.State) (e : Coordinator.Env),
      Coordinator._skip_first_update c = false ->
      Spec.fetch_fails (Coordinator.reply e) = true ->
      Spec.poll_phase (Coordinator.async_refresh c e) = Spec.Failing
      /\ Coordinator.update_interval (Coordinator.async_refresh c e)
         = Const.RETRY_UPDATE_INTERVAL
      /\ (Const.RETRY_UPDATE_INTERVAL < Const.DEFAULT_UPDATE_INTERVAL)%Z)
  /\
  (forall (c : LegacyCoordinator.State) (e : LegacyCoordinator.Env),
      LegacyCoordinator._skip_first_update c = false ->
      Spec.fetch_fails (LegacyCoordinator.reply e) = true ->
      LegacyCoordinator.returned (LegacyCoordinator._async_update_data c e)
        = Raise UpdateFailed
      /\ LegacyCoordinator.update_interval
           (LegacyCoordinator.state (LegacyCoordinator._async_update_data c e))
         = (Const.DEFAULT_UPDATE_INTERVAL
            + td_seconds
                (if LegacyCoordinator._first_update c
                 then randint 0 (int_total_seconds Const.INITIAL_RANDOM_OFFSET_MAX)
                        (LegacyCoordinator.entropy e)
                 else randint (- int_total_seconds Const.UPDATE_JITTER_MAX)
                        (int_total_seconds Const.UPDATE_JITTER_MAX)
                        (LegacyCoordinator.entropy e)))%Z
      /\ (td_hours 12 - td_minutes 2
          <= LegacyCoordinator.update_interval
               (LegacyCoordinator.state (LegacyCoordinator._async_update_data c e))
          <= td_hours 12 + td_minutes 30)%Z
      /\ LegacyCoordinator.update_interval
           (LegacyCoordinator.state (LegacyCoordinator._async_update_data c e))
         <> Const.RETRY_UPDATE_INTERVAL).
Proof.
  split.
  - intros c e Hskip Hfail. destruct (fetch_fails_raises c e Hfail) as [x Hx].
    pose proof (fetch_and_return_raise c e x Hx) as Hr.
    unfold Coordinator.async_refresh, Coordinator._async_update_data.
    rewrite Hskip, Hr, andb_true_r.
    unfold Spec.poll_phase.
    destruct (Coordinator._is_data_stale (Coordinator.data c) (Coordinator.now e));
      cbn; rewrite Hskip; repeat split; reflexivity.
  - intros c e Hskip Hfail. destruct (legacy_fetch_fails_raises e Hfail) as [x Hx].
    assert (Ho : int_total_seconds Const.INITIAL_RANDOM_OFFSET_MAX = 1800%Z) by reflexivity.
    assert (Hj : int_total_seconds Const.UPDATE_JITTER_MAX = 120%Z) by reflexivity.
    pose proof (randint_range 0 1800 (LegacyCoordinator.entropy e)) as Hr1.
    pose proof (randint_range (-120) 120 (LegacyCoordinator.entropy e)) as Hr2.
    unfold LegacyCoordinator._async_update_data. rewrite Hskip, Hx, Ho, Hj.
    change (Z.opp 120) with (-120)%Z.
    destruct (LegacyCoordinator._first_update c);
      (assert (Hret : forall (s : LegacyCoordinator.State) (u : list str),
                 (match x with
                  | ClientError => LegacyCoordinator.mkOutcome s (Raise UpdateFailed) u
                  | _ => LegacyCoordinator.mkOutcome s (Raise UpdateFailed) u
                  end) = LegacyCoordinator.mkOutcome s (Raise UpdateFailed) u)
         by (intros; now destruct x));
      rewrite Hret;
      cbn [LegacyCoordinator.returned LegacyCoordinator.state
           LegacyCoordinator.update_interval LegacyCoordinator.set_update_interval
           LegacyCoordinator.set_flags];
      unfold Const.RETRY_UPDATE_INTERVAL, Const.DEFAULT_UPDATE_INTERVAL, td_hours,
        td_minutes, td_seconds;
      repeat split; try reflexivity; lia.
Qed.

Lemma failed_fetch_wait_by_coordinator_witness :
  (Spec.poll_phase (Coordinator.async_refresh Scenario.coordinator_C Scenario.env_D)
     = Spec.Failing
   /\ Coordinator.update_interval
        (Coordinator.async_refresh Scenario.coordinator_C Scenario.env_D)
      = Const.RETRY_UPDATE_INTERVAL
   /\ (Const.RETRY_UPDATE_INTERVAL < Const.DEFAULT_UPDATE_INTERVAL)%Z)
  /\ LegacyCoordinator.returned
       (LegacyCoordinator._async_update_data Scenario.legacy_steady Cases.legacy_env_D_240)
     = Raise UpdateFailed.
Proof.
  split.
  - apply (proj1 failed_fetch_wait_by_coordinator Scenario.coordinator_C Scenario.env_D);
      reflexivity.
  - apply (proj2 failed_fetch_wait_by_coordinator Scenario.legacy_steady
             Cases.legacy_env_D_240 eq_refl eq_refl).
Defined.

(** C6: once the snapshot's [last_delivery_date] is set, no sequence of
    cycles (fetching with success, skipping, failing) makes it empty
    again. *)
Theorem last_delivery_never_reverts
    (c : Coordinator.State) (envs : list Coordinator.Env) (v : str) :
  Spec.lastDeliveryDate c = Some v ->
  Spec.lastDeliveryDate (Coordinator.run c envs) <> None.
Proof.
  intros Hv.
  assert (H : Spec.lastDeliveryDate (Coordinator.run c envs) = Some v).
  { revert c Hv. induction envs as [|e rest IH]; intros c Hv; [exact Hv|].
    apply (IH (Coordinator.async_refresh c e)).
    now apply refresh_keeps_last_delivery. }
  rewrite H. discriminate.
Qed.

Lemma last_delivery_never_reverts_witness :
  Spec.lastDeliveryDate
    (Coordinator.run Scenario.coordinator_delivered
       [Scenario.env_C; Scenario.env_D; Scenario.env_13h]) <> None.
Proof.
  apply (last_delivery_never_reverts Scenario.coordinator_delivered
           [Scenario.env_C; Scenario.env_D; Scenario.env_13h] (py "2025-05-28")).
  reflexivity.
Defined.

(** C7: for every coordinator and every fetch failure, the snapshot after
    the cycle is the snapshot before it (delivery dates, [last_updated],
    [last_delivery_date]), and so is the postal code; what the cycle may
    change is the scheduling state. *)
Theorem failed_fetch_keeps_snapshot (c : Coordinator.State) (e : Coordinator.Env) :
  Spec.fetch_fails (Coordinator.reply e) = true ->
  Coordinator.data (Coordinator.async_refresh c e) = Coordinator.data c
  /\ Coordinator.postal_code (Coordinator.async_refresh c e) = Coordinator.postal_code c.
Proof. apply refresh_fails_keeps_data. Qed.

Lemma failed_fetch_keeps_snapshot_witness :
  Coordinator.data (Coordinator.async_refresh Scenario.coordinator_C Scenario.env_D)
    = Some Scenario.previous_C
  /\ Coordinator.postal_code (Coordinator.async_refresh Scenario.coordinator_C Scenario.env_D)
    = py "00100".
Proof.
  apply (failed_fetch_keeps_snapshot Scenario.coordinator_C Scenario.env_D).
  reflexivity.
Defined.

Lemma run_fails_keeps_data (c : Coordinator.State) (envs : list Coordinator.Env) :
  Forall (fun e => Spec.fetch_fails (Coordinator.reply e) = true) envs ->
  Coordinator.data (Coordinator.run c envs) = Coordinator.data c.
Proof.
  intros H. revert c. induction H as [|e rest He _ IH]; intros c; [reflexivity|].
  unfold Coordinator.run in *. simpl. rewrite IH.
  apply (refresh_fails_keeps_data c e He).
Qed.

(** C8: the sensor is available exactly when the last update succeeded or
    a snapshot exists; and with a snapshot it stays available through any
    number of consecutive fetch failures. *)
Theorem available_iff_success_or_snapshot
    (c : Coordinator.State) (envs : list Coordinator.Env) :
  (Sensor.available c = true
   <-> Coordinator.last_update_success c = true \/ Coordinator.data c <> None)
  /\ (Coordinator.data c <> None ->
      Forall (fun e => Spec.fetch_fails (Coordinator.reply e) = true) envs ->
      Sensor.available (Coordinator.run c envs) = true).
Proof.
  assert (Hiff : forall c', Sensor.available c' = true
            <-> Coordinator.last_update_success c' = true \/ Coordinator.data c' <> None).
  { intros c'. unfold Sensor.available.
    destruct (Coordinator.last_update_success c'), (Coordinator.data c'); simpl;
      split; auto; try (intros _; right; discriminate).
    intros [H|H]; [discriminate | now contradiction H]. }
  split; [apply Hiff|].
  intros Hdata Hfails. apply Hiff. right.
  now rewrite (run_fails_keeps_data c envs Hfails).
Qed.

Lemma available_iff_success_or_snapshot_witness :
  Sensor.available
    (Coordinator.run Scenario.coordinator_C [Scenario.env_D; Scenario.env_D; Scenario.env_D])
  = true.
Proof.
  apply (proj2 (available_iff_success_or_snapshot Scenario.coordinator_C
                  [Scenario.env_D; Scenario.env_D; Scenario.env_D])).
  - discriminate.
  - repeat constructor.
Defined.

(* ================================================================== *)
(** * Setup validation *)
(* ================================================================== *)

Lemma lstrip_head (s r : str) (c : N) : lstrip s = c :: r -> isspace c = false.
Proof.
  induction s as [|x t IH]; simpl; [discriminate|].
  destruct (isspace x) eqn:Hx; [exact IH|].
  intros H. inversion H; subst. exact Hx.
Qed.

Lemma In_lstrip (s : str) (c : N) : In c (lstrip s) -> In c s.
Proof.
  induction s as [|x t IH]; simpl; [tauto|].
  destruct (isspace x); simpl; tauto.
Qed.

Lemma In_strip (s : str) (c : N) : In c (strip s) -> In c s.
Proof.
  unfold strip, rstrip. intros H.
  apply In_lstrip. apply in_rev. apply In_lstrip. apply in_rev. exact H.
Qed.

(** A stripped string does not end in whitespace. *)
Lemma strip_last (s t : str) (c : N) : strip s = t ++ [c] -> isspace c = false.
Proof.
  unfold strip, rstrip. intros H.
  apply (f_equal (@rev N)) in H. rewrite rev_involutive, rev_app_distr in H.
  simpl in H. exact (lstrip_head _ _ _ H).
Qed.

(** On a string that does not end in a newline, the pattern matches
    exactly the strings of five decimal digits. *)
Lemma re_match_postal_code_five (s : str) :
  (forall t, s <> t ++ [10%N]) ->
  ConfigFlow.re_match_postal_code s = Spec.five isdecimal s.
Proof.
  intros Hlast. unfold ConfigFlow.re_match_postal_code, Spec.five.
  destruct s as [|a [|b [|c [|d [|e r]]]]]; cbn [match_seq List.length Nat.eqb forallb andb];
    try reflexivity;
    repeat match goal with
           | |- context [isdecimal ?x] => destruct (isdecimal x); cbn [andb]
           end; try reflexivity; try (now rewrite andb_false_r).
  destruct r as [|f [|g r']]; try reflexivity.
  cbn [List.length Nat.eqb]. destruct (N.eqb_spec f 10) as [->|Hf]; [|reflexivity].
  exfalso. apply (Hlast [a; b; c; d; e]). reflexivity.
Qed.

Lemma re_match_strip (input : str) :
  ConfigFlow.re_match_postal_code (strip input) = Spec.five isdecimal (strip input).
Proof.
  apply re_match_postal_code_five. intros t H.
  apply strip_last in H. discriminate H.
Qed.

Lemma decimal_in_above (zeros : list N) (c : N) :
  Forall (fun z => (c < z)%N) zeros -> decimal_in zeros c = None.
Proof.
  induction 1 as [|z zs Hz _ IH]; simpl; [reflexivity|].
  destruct (N.leb_spec z c); [lia|]. exact IH.
Qed.

(** Among ASCII characters the decimal digits are [0-9]. *)
Lemma isdecimal_ascii (c : N) : is_ascii c = true -> isdecimal c = is_ascii_digit c.
Proof.
  unfold is_ascii, isdecimal, to_decimal, is_ascii_digit.
  intros Hc. apply N.ltb_lt in Hc.
  change (decimal_in decimal_zeros c)
    with (if ((48 <=? c) && (c <=? 57))%N then Some (c - 48)%N
          else decimal_in (tl decimal_zeros) c).
  destruct ((48 <=? c) && (c <=? 57))%N; [reflexivity|].
  rewrite decimal_in_above; [reflexivity|].
  unfold decimal_zeros; cbn [tl]. repeat constructor; lia.
Qed.

Lemma five_ascii (s : str) :
  forallb is_ascii s = true -> Spec.five isdecimal s = Spec.five is_ascii_digit s.
Proof.
  unfold Spec.five. intros H. f_equal.
  induction s as [|c r IH]; simpl in *; [reflexivity|].
  apply andb_prop in H as [Hc Hr]. now rewrite (isdecimal_ascii c Hc), (IH Hr).
Qed.

Lemma validate_input_invalid (input : str) (r : Api.reply) :
  ConfigFlow.validate_input input r = Raise InvalidPostalCode
  <-> ConfigFlow.re_match_postal_code (strip input) = false.
Proof.
  unfold ConfigFlow.validate_input.
  destruct (ConfigFlow.re_match_postal_code (strip input)); cbn [negb].
  - split; [|discriminate].
    destruct (ConfigFlow.connect r) as [dd|[]]; discriminate.
  - split; reflexivity.
Qed.

(** C10 as stated fails: five Arabic-Indic digits are not five ASCII
    digits, and [validate_input] accepts them as a postal code. *)
Lemma validate_input_accepts_arabic_digits :
  Spec.five is_ascii_digit (strip Scenario.arabic_12345) = false
  /\ ConfigFlow.validate_input Scenario.arabic_12345 Scenario.reply_C
     = Ok (ConfigFlow.mkInfo (py "Posti " ++ Scenario.arabic_12345)
             Scenario.arabic_12345 [py "2025-06-10"])
  /\ forall r, ConfigFlow.validate_input Scenario.arabic_12345 r <> Raise InvalidPostalCode.
Proof.
  split; [reflexivity | split; [reflexivity|]].
  intros r H. apply validate_input_invalid in H. discriminate H.
Qed.

(** C10, amended: [validate_input] raises [InvalidPostalCode], and the
    flow then shows the form again instead of creating an entry, if and
    only if the input with surrounding whitespace stripped is not exactly
    five decimal digits in the sense of [\d] (the ASCII digits and the
    decimal digits of the other scripts); for an input of ASCII characters
    that is: not exactly five ASCII digits. *)
Theorem validate_input_invalid_postal_code (input : str) (r : Api.reply) :
  (ConfigFlow.validate_input input r = Raise InvalidPostalCode
   <-> Spec.five isdecimal (strip input) = false)
  /\ (forallb is_ascii input = true ->
      (ConfigFlow.validate_input input r = Raise InvalidPostalCode
       <-> Spec.five is_ascii_digit (strip input) = false))
  /\ (ConfigFlow.validate_input input r = Raise InvalidPostalCode ->
      forall now configured,
        ConfigFlow.async_step_user (Some input) r now configured
        = ConfigFlow.ShowForm (Some (py "invalid_postal_code"))).
Proof.
  assert (H1 : ConfigFlow.validate_input input r = Raise InvalidPostalCode
               <-> Spec.five isdecimal (strip input) = false).
  { rewrite validate_input_invalid, re_match_strip. reflexivity. }
  split; [exact H1 | split].
  - intros Hascii. rewrite H1, five_ascii; [reflexivity|].
    apply forallb_forall. intros c Hc.
    apply (proj1 (forallb_forall _ _) Hascii). now apply In_strip.
  - intros H now configured. unfold ConfigFlow.async_step_user. now rewrite H.
Qed.

Lemma validate_input_invalid_postal_code_witness :
  ConfigFlow.validate_input (py " 1234 ") Scenario.reply_C = Raise InvalidPostalCode
  /\ ConfigFlow.async_step_user (Some (py " 1234 ")) Scenario.reply_C Scenario.t_june_1 false
     = ConfigFlow.ShowForm (Some (py "invalid_postal_code")).
Proof.
  pose proof (validate_input_invalid_postal_code (py " 1234 ") Scenario.reply_C)
    as [_ [Hascii Hflow]].
  assert (H : ConfigFlow.validate_input (py " 1234 ") Scenario.reply_C
              = Raise InvalidPostalCode).
  { apply (Hascii eq_refl). reflexivity. }
  split; [exact H | exact (Hflow H Scenario.t_june_1 false)].
Defined.

(* ================================================================== *)
(** * The model on the scenarios of section 8 *)
(* ================================================================== *)

Example strptime_padded : strptime_ymd (py "2025-06-01") = Ok (mkdate 2025 6 1).
Proof. reflexivity. Qed.

Example strptime_unpadded : strptime_ymd (py "2025-6-1") = Ok (mkdate 2025 6 1).
Proof. reflexivity. Qed.

Example strptime_not_a_leap_year : strptime_ymd (py "2025-02-29") = Raise ValueError.
Proof. reflexivity. Qed.

Example strptime_trailing_data : strptime_ymd (py "2025-06-011") = Raise ValueError.
Proof. reflexivity. Qed.

(** Scenario A: a seeded coordinator skips the fetch of its first cycle
    and returns the seed. *)
Example scenario_A :
  let c := Coordinator.__init__ (py "00100")
             (Some (Coordinator.mkInitialData [py "2025-01-10"; py "2025-01-15"]
                      Scenario.t_june_1)) in
  let e := Coordinator.mkEnv Scenario.may_30 Scenario.t_june_1 Scenario.t_june_1
             Scenario.reply_C in
  Coordinator.requests (Coordinator._async_update_data c e) = []
  /\ Coordinator.data (Coordinator.async_refresh c e) = Coordinator.data c
  /\ Spec.poll_phase c = Spec.Seeded
  /\ Spec.poll_phase (Coordinator.async_refresh c e) = Spec.Steady.
Proof. repeat split; reflexivity. Qed.

(** Scenario B: without a seed the first cycle fetches and stores the
    reply. *)
Example scenario_B :
  let c := Coordinator.__init__ (py "00100") None in
  let r := Api.Response 200
             (Api.EntryList [Api.mkentry (Some (py "00100")) (Some [py "2025-06-01"])]) in
  let e := Coordinator.mkEnv Scenario.may_30 Scenario.t_june_1 Scenario.t_june_1 r in
  Coordinator.data (Coordinator.async_refresh c e)
  = Some (Coordinator.mkSnapshot [py "2025-06-01"] Scenario.t_june_1 None).
Proof. reflexivity. Qed.

(** Scenario D: HTTP 500 keeps the snapshot and schedules the retry. *)
Example scenario_D :
  Coordinator.async_refresh Scenario.coordinator_C Scenario.env_D
  = Coordinator.mkState (py "00100") false false Const.RETRY_UPDATE_INTERVAL
      (Some Scenario.previous_C) false.
Proof. reflexivity. Qed.

(** Scenario E: the attributes two days before the next delivery. *)
Example scenario_E :
  Sensor.extra_state_attributes (py "00100") (Some Scenario.snapshot_E) Scenario.may_30
  = Ok (Some (Sensor.mkAttributes (py "00100") (Some (py "2025-06-01")) None (Some 2%Z) 2
                [py "2025-06-01"; py "2025-06-05"] (Some Scenario.t_june_1))).
Proof. reflexivity. Qed.

(** The earlier coordinator keeps its jittered schedule when the fetch
    fails: it has no retry interval. *)
Example legacy_failure_keeps_jitter :
  let e := LegacyCoordinator.mkEnv 0 Scenario.t_june_2 Scenario.reply_D in
  let o := LegacyCoordinator._async_update_data Scenario.legacy_steady e in
  LegacyCoordinator.returned o = Raise UpdateFailed
  /\ LegacyCoordinator.update_interval (LegacyCoordinator.state o)
     = (td_hours 12 - td_minutes 2)%Z.
Proof. split; reflexivity. Qed.

(* ================================================================== *)
(** * Further properties of the update cycle *)
(* ================================================================== *)

(** The [try] block does not look at the coordinator's flags. *)
Lemma fetch_set_first_update (c : Coordinator.State) (e : Coordinator.Env) (b : bool) :
  Coordinator.fetch (Coordinator.set_first_update c b) e = Coordinator.fetch c e.
Proof. reflexivity. Qed.

Lemma fetch_and_return_ok (c : Coordinator.State) (e : Coordinator.Env)
    (new : Coordinator.Snapshot) :
  Coordinator.fetch c e = Ok new ->
  Coordinator.fetch_and_return c e
  = Coordinator.mkOutcome
      (Coordinator.set_update_interval (Coordinator.set_first_update c false)
         Const.DEFAULT_UPDATE_INTERVAL)
      (Ok (Some new))
      [Const.API_URL_format (Coordinator.postal_code c)].
Proof.
  intros H. unfold Coordinator.fetch_and_return.
  assert (Hc : (if Coordinator._first_update c
                then Coordinator.set_first_update c false else c)
               = Coordinator.set_first_update c false).
  { destruct c as [p f s u d l]; destruct f; reflexivity. }
  rewrite Hc, fetch_set_first_update, H. reflexivity.
Qed.

(** The whole cycle in one equation: a pending skip returns the cached
    data; otherwise the [try] block decides between the new snapshot with
    the base interval and the old one with the retry interval. *)
Lemma async_refresh_cases (c : Coordinator.State) (e : Coordinator.Env) :
  Coordinator.async_refresh c e
  = if Coordinator._skip_first_update c then
      Coordinator.mkState (Coordinator.postal_code c) false false
        (Coordinator.update_interval c) (Coordinator.data c) true
    else
      match Coordinator.fetch c e with
      | Ok new =>
          Coordinator.mkState (Coordinator.postal_code c) false false
            Const.DEFAULT_UPDATE_INTERVAL (Some new) true
      | Raise _ =>
          Coordinator.mkState (Coordinator.postal_code c) false false
            Const.RETRY_UPDATE_INTERVAL (Coordinator.data c) false
      end.
Proof.
  unfold Coordinator.async_refresh, Coordinator._async_update_data.
  destruct (Coordinator._skip_first_update c) eqn:Hs.
  - rewrite andb_false_r. reflexivity.
  - assert (Hg : (if Coordinator._is_data_stale (Coordinator.data c) (Coordinator.now e)
                     && negb false
                  then Coordinator.fetch_and_return c e
                  else Coordinator.fetch_and_return c e)
                 = Coordinator.fetch_and_return c e).
    { now destruct (_ && _). }
    rewrite Hg. clear Hg.
    destruct (Coordinator.fetch c e) as [new|x] eqn:Hx.
    + rewrite (fetch_and_return_ok c e new Hx).
      destruct c as [p f s u d l]; cbn in Hs; subst s. reflexivity.
    + rewrite (fetch_and_return_raise c e x Hx).
      destruct c as [p f s u d l]; cbn in Hs; subst s. reflexivity.
Qed.

Lemma requests_cases (c : Coordinator.State) (e : Coordinator.Env) :
  Coordinator.requests (Coordinator._async_update_data c e)
  = if Coordinator._skip_first_update c then []
    else [Const.API_URL_format (Coordinator.postal_code c)].
Proof.
  unfold Coordinator._async_update_data.
  destruct (Coordinator._skip_first_update c).
  - rewrite andb_false_r. reflexivity.
  - destruct (_ && _); apply fetch_and_return_requests.
Qed.

(** A successful [try] block carries the stored last delivery over, also
    when there is no snapshot yet. *)
Lemma fetch_last_delivery (c : Coordinator.State) (e : Coordinator.Env)
    (new : Coordinator.Snapshot) :
  Coordinator.fetch c e = Ok new ->
  Coordinator.last_delivery_date new = Spec.lastDeliveryDate c.
Proof.
  unfold Spec.lastDeliveryDate.
  destruct (Coordinator.data c) as [d|] eqn:Hd.
  - apply fetch_ok_last_delivery. exact Hd.
  - unfold Coordinator.fetch. rewrite Hd.
    destruct (Coordinator.reply e) as [| |status b]; try discriminate.
    destruct (status =? 200)%Z; cbn [negb]; [|discriminate].
    destruct b as [|[|first rest]]; try discriminate.
    destruct (Api.deliveryDates first) as [[|x l]|]; try discriminate.
    cbn. intros H. inversion H. reflexivity.
Qed.

(** A successful [try] block stores the dates of the reply, which are not
    empty. *)
Lemma fetch_dates_present (c : Coordinator.State) (e : Coordinator.Env)
    (new : Coordinator.Snapshot) :
  Coordinator.fetch c e = Ok new -> Coordinator.delivery_dates new <> [].
Proof.
  unfold Coordinator.fetch.
  destruct (Coordinator.reply e) as [| |status b]; try discriminate.
  destruct (status =? 200)%Z; cbn [negb]; [|discriminate].
  destruct b as [|[|first rest]]; try discriminate.
  destruct (Api.deliveryDates first) as [[|x l]|]; try discriminate.
  destruct (Coordinator._check_last_delivery _ _); cbn [bind]; [|discriminate].
  intros H. inversion H. discriminate.
Qed.

Lemma refresh_last_delivery (c : Coordinator.State) (e : Coordinator.Env) :
  Spec.lastDeliveryDate (Coordinator.async_refresh c e) = Spec.lastDeliveryDate c.
Proof.
  rewrite async_refresh_cases.
  destruct (Coordinator._skip_first_update c); [reflexivity|].
  destruct (Coordinator.fetch c e) as [new|x] eqn:Hx; [|reflexivity].
  unfold Spec.lastDeliveryDate at 1. cbn [Coordinator.data].
  exact (fetch_last_delivery c e new Hx).
Qed.

(** X1: whenever [_check_last_delivery] returns, it returns the stored
    [last_delivery_date] (empty without a snapshot); it never returns one of
    the delivery dates. *)
Theorem check_last_delivery_returns_stored
    (data : option Coordinator.Snapshot) (today : date) (v : option str) :
  Coordinator._check_last_delivery data today = Ok v ->
  v = match data with
      | Some d => Coordinator.last_delivery_date d
      | None => None
      end.
Proof.
  destruct data as [d|]; [apply check_last_delivery_keeps|].
  cbn. congruence.
Qed.

Lemma check_last_delivery_returns_stored_witness :
  Some (py "2025-05-28")
  = match Coordinator.data Scenario.coordinator_delivered with
    | Some d => Coordinator.last_delivery_date d
    | None => None
    end.
Proof.
  apply (check_last_delivery_returns_stored
           (Coordinator.data Scenario.coordinator_delivered) Scenario.june_2).
  reflexivity.
Defined.

(** X2: no sequence of update cycles changes the snapshot's
    [last_delivery_date]. *)
Theorem run_never_changes_last_delivery
    (c : Coordinator.State) (envs : list Coordinator.Env) :
  Spec.lastDeliveryDate (Coordinator.run c envs) = Spec.lastDeliveryDate c.
Proof.
  revert c. induction envs as [|e rest IH]; intros c; [reflexivity|].
  unfold Coordinator.run in *. cbn [fold_left].
  rewrite IH. apply refresh_last_delivery.
Qed.

(** X3: for a coordinator built by [__init__] and run through any cycles,
    the attribute [last_scheduled_date] is empty whenever the attributes are
    computed. *)
Theorem last_scheduled_date_always_empty
    (postal : str) (seed : option Coordinator.InitialData)
    (envs : list Coordinator.Env) (today : date) (a : Sensor.Attributes) :
  Sensor.extra_state_attributes postal
    (Coordinator.data (Coordinator.run (Coordinator.__init__ postal seed) envs)) today
  = Ok (Some a) ->
  Sensor.attr_last_scheduled_date a = None.
Proof.
  pose proof (run_never_changes_last_delivery (Coordinator.__init__ postal seed) envs) as H.
  assert (H0 : Spec.lastDeliveryDate (Coordinator.__init__ postal seed) = None).
  { destruct seed; reflexivity. }
  rewrite H0 in H. unfold Spec.lastDeliveryDate in H.
  unfold Sensor.extra_state_attributes.
  destruct (Coordinator.data (Coordinator.run (Coordinator.__init__ postal seed) envs))
    as [d|]; [|discriminate].
  destruct (Coordinator.delivery_dates d) as [|x l].
  - intros E. inversion E. reflexivity.
  - destruct (future_dates (x :: l) today); cbn [bind]; [|discriminate].
    intros E. inversion E. cbn. exact H.
Qed.

Lemma last_scheduled_date_always_empty_witness :
  exists a,
    Sensor.extra_state_attributes (py "00100")
      (Coordinator.data (Coordinator.run Scenario.seeded [Scenario.env_13h; Scenario.env_C]))
      Scenario.june_2 = Ok (Some a)
    /\ Sensor.attr_last_scheduled_date a = None.
Proof.
  eexists. split; [reflexivity|].
  eapply (last_scheduled_date_always_empty (py "00100")
            (Some (Coordinator.mkInitialData [py "2025-06-01"] Scenario.t_june_1))
            [Scenario.env_13h; Scenario.env_C] Scenario.june_2).
  reflexivity.
Defined.

(** X4: the clock read by [_is_data_stale] has no effect on a cycle: the
    cycle is the same under any other reading, and it requests the API
    exactly when no first-fetch skip is pending. *)
Theorem cycle_ignores_staleness (c : Coordinator.State) (e : Coordinator.Env)
    (t : datetime) :
  Coordinator._async_update_data c (Shape.with_now e t)
  = Coordinator._async_update_data c e
  /\ Coordinator.requests (Coordinator._async_update_data c e)
     = if Coordinator._skip_first_update c then []
       else [Const.API_URL_format (Coordinator.postal_code c)].
Proof.
  split; [|apply requests_cases].
  unfold Coordinator._async_update_data.
  assert (Hf : Coordinator.fetch_and_return c (Shape.with_now e t)
               = Coordinator.fetch_and_return c e) by reflexivity.
  rewrite Hf.
  destruct (Coordinator._skip_first_update c).
  - rewrite !andb_false_r. reflexivity.
  - now destruct (_ && _), (_ && _).
Qed.

(** X5: after any cycle both [_skip_first_update] and [_first_update] are
    cleared, so the cycle that follows requests the API for the
    coordinator's postal code. *)
Theorem skip_happens_at_most_once
    (c : Coordinator.State) (e1 e2 : Coordinator.Env) :
  Coordinator._skip_first_update (Coordinator.async_refresh c e1) = false
  /\ Coordinator._first_update (Coordinator.async_refresh c e1) = false
  /\ Coordinator.requests
       (Coordinator._async_update_data (Coordinator.async_refresh c e1) e2)
     = [Const.API_URL_format (Coordinator.postal_code c)].
Proof.
  rewrite requests_cases, async_refresh_cases.
  destruct (Coordinator._skip_first_update c); [repeat split; reflexivity|].
  destruct (Coordinator.fetch c e1); repeat split; reflexivity.
Qed.

Lemma future_dates_raises_ValueError (dates : list str) (today : date) (x : exn) :
  future_dates dates today = Raise x -> x = ValueError.
Proof.
  induction dates as [|d rest IH]; cbn [future_dates]; [discriminate|].
  destruct (strptime_ymd d) as [p|y] eqn:Hp; cbn [bind].
  - destruct (future_dates rest today) as [f|y]; cbn [bind]; [discriminate|].
    intros H. inversion H; subst. now apply IH.
  - intros H. inversion H; subst. exact (strptime_raises_ValueError _ _ Hp).
Qed.

Lemma check_last_delivery_raises_ValueError
    (data : option Coordinator.Snapshot) (today : date) (x : exn) :
  Coordinator._check_last_delivery data today = Raise x -> x = ValueError.
Proof.
  unfold Coordinator._check_last_delivery.
  destruct data as [d|]; [|discriminate].
  destruct (Coordinator.delivery_dates d) as [|y l]; [discriminate|].
  destruct (future_dates (y :: l) today) as [[|[|ch n] f]|z] eqn:Hf; cbn [bind];
    try discriminate.
  - destruct (strptime_ymd (ch :: n)) as [p|z] eqn:Hp; cbn [bind].
    + destruct (date_lt p today); discriminate.
    + intros H. inversion H; subst. exact (strptime_raises_ValueError _ _ Hp).
  - intros H. inversion H; subst. exact (future_dates_raises_ValueError _ _ _ Hf).
Qed.

(** X6: whichever exception of class [Exception] the [try] block raises
    (the [aiohttp.ClientError] or another error of the request, the
    [UpdateFailed] of the checks on the reply, the [ValueError] of
    [_check_last_delivery]; these are all it raises on the outcomes of
    [Api.reply]), the cycle raises [UpdateFailed], schedules the retry
    interval, clears [last_update_success] and keeps [data]. *)
Theorem try_block_errors_become_UpdateFailed
    (c : Coordinator.State) (e : Coordinator.Env) (x : exn) :
  Coordinator._skip_first_update c = false ->
  Coordinator.fetch c e = Raise x ->
  (x = ClientError \/ x = TimeoutError \/ x = UpdateFailed \/ x = ValueError)
  /\ Coordinator.returned (Coordinator._async_update_data c e) = Raise UpdateFailed
  /\ Coordinator.update_interval (Coordinator.async_refresh c e)
     = Const.RETRY_UPDATE_INTERVAL
  /\ Coordinator.last_update_success (Coordinator.async_refresh c e) = false
  /\ Coordinator.data (Coordinator.async_refresh c e) = Coordinator.data c.
Proof.
  intros Hskip Hx. split.
  - revert Hx. unfold Coordinator.fetch.
    destruct (Coordinator.reply e) as [| |status b];
      [intros H; inversion H; auto | intros H; inversion H; auto |].
    destruct (negb (status =? 200)%Z); [intros H; inversion H; auto|].
    destruct b as [|[|first rest]]; try (intros H; inversion H; now auto).
    destruct (Api.deliveryDates first) as [[|y l]|]; try (intros H; inversion H; now auto).
    destruct (Coordinator._check_last_delivery (Coordinator.data c) (Coordinator.today e))
      as [v|z] eqn:Hv; cbn [bind]; [discriminate|].
    intros H. inversion H; subst.
    rewrite (check_last_delivery_raises_ValueError _ _ _ Hv). auto.
  - rewrite async_refresh_cases, Hskip, Hx.
    unfold Coordinator._async_update_data. rewrite Hskip.
    assert (Hg : forall b : bool,
               (if b then Coordinator.fetch_and_return c e
                else Coordinator.fetch_and_return c e)
               = Coordinator.fetch_and_return c e) by (now intros []).
    rewrite Hg, (fetch_and_return_raise c e x Hx). repeat split; reflexivity.
Qed.

Lemma try_block_errors_become_UpdateFailed_witness :
  (UpdateFailed = ClientError \/ UpdateFailed = TimeoutError
   \/ UpdateFailed = UpdateFailed \/ UpdateFailed = ValueError)
  /\ Coordinator.returned
       (Coordinator._async_update_data Scenario.coordinator_C Scenario.env_D)
     = Raise UpdateFailed
  /\ Coordinator.update_interval
       (Coordinator.async_refresh Scenario.coordinator_C Scenario.env_D)
     = Const.RETRY_UPDATE_INTERVAL
  /\ Coordinator.last_update_success
       (Coordinator.async_refresh Scenario.coordinator_C Scenario.env_D) = false
  /\ Coordinator.data (Coordinator.async_refresh Scenario.coordinator_C Scenario.env_D)
     = Coordinator.data Scenario.coordinator_C.
Proof.
  apply (try_block_errors_become_UpdateFailed Scenario.coordinator_C Scenario.env_D
           UpdateFailed); reflexivity.
Defined.

(** With stored dates that all parse, the reconciler returns the stored
    value. *)
Lemma check_last_delivery_well_formed (data : option Coordinator.Snapshot) (today : date) :
  Shape.stored_well_formed data = true ->
  Coordinator._check_last_delivery data today
  = Ok (match data with
        | Some d => Coordinator.last_delivery_date d
        | None => None
        end).
Proof.
  destruct data as [d|]; [|reflexivity].
  cbn [Shape.stored_well_formed]. intros Hwf.
  destruct (Coordinator._check_last_delivery (Some d) today) as [v|x] eqn:Hv.
  - now rewrite (check_last_delivery_keeps _ _ _ Hv).
  - exfalso. revert Hv. unfold Coordinator._check_last_delivery.
    destruct (Coordinator.delivery_dates d) as [|y l] eqn:Hd; [discriminate|].
    rewrite (future_dates_well_formed _ today Hwf). cbn [bind].
    destruct (filter (is_future today) (y :: l)) as [|n f] eqn:Hf; [discriminate|].
    destruct n as [|ch n']; [discriminate|].
    assert (Hin : In (ch :: n') (y :: l)).
    { apply (proj1 (filter_In (is_future today) (ch :: n') (y :: l))).
      rewrite Hf. left. reflexivity. }
    pose proof (proj1 (forallb_forall _ _) Hwf _ Hin) as Hp.
    unfold Spec.well_formed in Hp.
    destruct (strptime_ymd (ch :: n')); [|discriminate].
    cbn [bind]. destruct (date_lt a today); discriminate.
Qed.

(** X7: with no skip pending, a reply of status 200 whose first entry has a
    non-empty date list, and stored dates that all parse, the cycle stores
    the reply's dates stamped with the clock, keeps the last delivery,
    schedules the base interval and sets [last_update_success]. *)
Theorem successful_fetch_stores_reply
    (c : Coordinator.State) (e : Coordinator.Env)
    (code : option str) (first : str) (more : list str) (others : list Api.entry) :
  Coordinator._skip_first_update c = false ->
  Coordinator.reply e
  = Api.Response 200 (Api.EntryList (Api.mkentry code (Some (first :: more)) :: others)) ->
  Shape.stored_well_formed (Coordinator.data c) = true ->
  Coordinator.async_refresh c e
  = Coordinator.mkState (Coordinator.postal_code c) false false
      Const.DEFAULT_UPDATE_INTERVAL
      (Some (Coordinator.mkSnapshot (first :: more) (Coordinator.now_fetched e)
               (Spec.lastDeliveryDate c)))
      true.
Proof.
  intros Hskip Hreply Hwf. rewrite async_refresh_cases, Hskip.
  unfold Coordinator.fetch. rewrite Hreply. cbn [Z.eqb Pos.eqb negb Api.deliveryDates].
  rewrite (check_last_delivery_well_formed _ (Coordinator.today e) Hwf).
  reflexivity.
Qed.

Lemma successful_fetch_stores_reply_witness :
  Coordinator.async_refresh Scenario.coordinator_C Scenario.env_C
  = Coordinator.mkState (py "00100") false false Const.DEFAULT_UPDATE_INTERVAL
      (Some (Coordinator.mkSnapshot [py "2025-06-10"] Scenario.t_june_2 None)) true.
Proof.
  apply (successful_fetch_stores_reply Scenario.coordinator_C Scenario.env_C
           (Some (py "00100")) (py "2025-06-10") [] []); reflexivity.
Defined.

(** X8: once the snapshot holds an entry that [strptime] refuses, no
    sequence of cycles replaces the snapshot, and every cycle that fetches
    raises [UpdateFailed], whatever the reply. *)
Theorem malformed_stored_date_blocks_updates
    (c : Coordinator.State) (d : Coordinator.Snapshot) (bad : str)
    (envs : list Coordinator.Env) :
  Coordinator.data c = Some d ->
  In bad (Coordinator.delivery_dates d) ->
  strptime_ymd bad = Raise ValueError ->
  Coordinator.data (Coordinator.run c envs) = Some d
  /\ forall e, Coordinator._skip_first_update c = false ->
       Coordinator.returned (Coordinator._async_update_data c e) = Raise UpdateFailed.
Proof.
  intros Hd Hin Hbad.
  assert (Hfetch : forall c' e, Coordinator.data c' = Some d ->
                     exists x, Coordinator.fetch c' e = Raise x).
  { intros c' e Hd'. unfold Coordinator.fetch. rewrite Hd'.
    destruct (Coordinator.reply e) as [| |status b]; eauto.
    destruct (negb (status =? 200)%Z); eauto.
    destruct b as [|[|first rest]]; eauto.
    destruct (Api.deliveryDates first) as [[|y l]|]; eauto.
    unfold Coordinator._check_last_delivery.
    destruct (Coordinator.delivery_dates d) as [|z r] eqn:Hdd; [contradiction|].
    rewrite (future_dates_malformed (z :: r) (Coordinator.today e) bad Hin Hbad).
    cbn [bind]. eauto. }
  assert (Hstep : forall c' e, Coordinator.data c' = Some d ->
                    Coordinator.data (Coordinator.async_refresh c' e) = Some d).
  { intros c' e Hd'. rewrite async_refresh_cases.
    destruct (Coordinator._skip_first_update c'); [exact Hd'|].
    destruct (Hfetch c' e Hd') as [x Hx]. rewrite Hx. exact Hd'. }
  split.
  - revert c Hd. induction envs as [|e rest IH]; intros c Hd; [exact Hd|].
    unfold Coordinator.run in *. cbn [fold_left]. apply IH. now apply Hstep.
  - intros e Hskip. destruct (Hfetch c e Hd) as [x Hx].
    unfold Coordinator._async_update_data. rewrite Hskip.
    assert (Hg : forall b : bool,
               (if b then Coordinator.fetch_and_return c e
                else Coordinator.fetch_and_return c e)
               = Coordinator.fetch_and_return c e) by (now intros []).
    rewrite Hg, (fetch_and_return_raise c e x Hx). reflexivity.
Qed.

Lemma malformed_stored_date_blocks_updates_witness :
  Coordinator.data (Coordinator.run Cases.coordinator_malformed [Scenario.env_C; Scenario.env_C])
  = Some Scenario.snapshot_malformed
  /\ forall e, Coordinator._skip_first_update Cases.coordinator_malformed = false ->
       Coordinator.returned (Coordinator._async_update_data Cases.coordinator_malformed e)
       = Raise UpdateFailed.
Proof.
  apply (malformed_stored_date_blocks_updates Cases.coordinator_malformed
           Scenario.snapshot_malformed (py "tomorrow")).
  - reflexivity.
  - right. left. reflexivity.
  - reflexivity.
Defined.

Lemma refresh_data_cases (c : Coordinator.State) (e : Coordinator.Env) :
  Coordinator.data (Coordinator.async_refresh c e) = Coordinator.data c
  \/ exists new, Coordinator.fetch c e = Ok new
                 /\ Coordinator.data (Coordinator.async_refresh c e) = Some new.
Proof.
  rewrite async_refresh_cases.
  destruct (Coordinator._skip_first_update c); [left; reflexivity|].
  destruct (Coordinator.fetch c e) as [new|x]; [right; eauto | left; reflexivity].
Qed.

(** X9: a snapshot, once present, is present after every sequence of
    cycles, and the sensor is available. *)
Theorem snapshot_never_disappears (c : Coordinator.State) (envs : list Coordinator.Env) :
  Coordinator.data c <> None ->
  Coordinator.data (Coordinator.run c envs) <> None
  /\ Sensor.available (Coordinator.run c envs) = true.
Proof.
  intros H.
  assert (Hrun : Coordinator.data (Coordinator.run c envs) <> None).
  { revert c H. induction envs as [|e rest IH]; intros c H; [exact H|].
    unfold Coordinator.run in *. cbn [fold_left]. apply IH.
    destruct (refresh_data_cases c e) as [Heq|[new [_ Heq]]]; rewrite Heq;
      [exact H | discriminate]. }
  split; [exact Hrun|].
  unfold Sensor.available.
  destruct (Coordinator.data (Coordinator.run c envs)); [apply orb_true_r|].
  now contradiction Hrun.
Qed.

Lemma snapshot_never_disappears_witness :
  Coordinator.data
    (Coordinator.run Scenario.coordinator_C [Scenario.env_D; Scenario.env_C; Scenario.env_D])
  <> None
  /\ Sensor.available
       (Coordinator.run Scenario.coordinator_C [Scenario.env_D; Scenario.env_C; Scenario.env_D])
     = true.
Proof.
  apply (snapshot_never_disappears Scenario.coordinator_C
           [Scenario.env_D; Scenario.env_C; Scenario.env_D]).
  discriminate.
Defined.

(** X10: if the snapshot holds at least one delivery date (or there is no
    snapshot), the same is true after every sequence of cycles. *)
Theorem delivery_dates_stay_present (c : Coordinator.State) (envs : list Coordinator.Env) :
  Shape.dates_present (Coordinator.data c) = true ->
  Shape.dates_present (Coordinator.data (Coordinator.run c envs)) = true.
Proof.
  revert c. induction envs as [|e rest IH]; intros c H; [exact H|].
  unfold Coordinator.run in *. cbn [fold_left]. apply IH.
  destruct (refresh_data_cases c e) as [Heq|[new [Hnew Heq]]]; rewrite Heq; [exact H|].
  apply fetch_dates_present in Hnew. cbn.
  destruct (Coordinator.delivery_dates new); [now contradiction Hnew | reflexivity].
Qed.

Lemma delivery_dates_stay_present_witness :
  Shape.dates_present
    (Coordinator.data
       (Coordinator.run (Coordinator.__init__ (py "00100") None)
          [Scenario.env_D; Scenario.env_C; Scenario.env_D])) = true.
Proof.
  apply (delivery_dates_stay_present (Coordinator.__init__ (py "00100") None)
           [Scenario.env_D; Scenario.env_C; Scenario.env_D]).
  reflexivity.
Defined.

(** X11: the first cycle of a seeded coordinator requests nothing and leaves
    the seed as the snapshot, whatever the seed's age and the reply; the
    first cycle of an unseeded one requests the API for its postal code. *)
Theorem first_cycle_after_construction
    (postal : str) (seed : Coordinator.InitialData) (e : Coordinator.Env) :
  (Coordinator.requests
     (Coordinator._async_update_data (Coordinator.__init__ postal (Some seed)) e) = []
   /\ Coordinator.async_refresh (Coordinator.__init__ postal (Some seed)) e
      = Coordinator.mkState postal false false Const.DEFAULT_UPDATE_INTERVAL
          (Some (Coordinator.mkSnapshot (Coordinator.init_delivery_dates seed)
                   (Coordinator.init_last_updated seed) None))
          true)
  /\ Coordinator.requests
       (Coordinator._async_update_data (Coordinator.__init__ postal None) e)
     = [Const.API_URL_format postal].
Proof.
  rewrite !requests_cases, async_refresh_cases. repeat split; reflexivity.
Qed.

(* ================================================================== *)
(** * The calendar *)
(* ================================================================== *)

Lemma days_before_year_le (y y' : Z) :
  (y <= y' -> days_before_year y <= days_before_year y')%Z.
Proof. unfold days_before_year. intros H. Z.to_euclidean_division_equations. lia. Qed.

Lemma days_before_year_succ (y : Z) :
  (days_before_year (y + 1)
   = days_before_year y + 365 + (if is_leap y then 1 else 0))%Z.
Proof.
  unfold days_before_year, is_leap.
  replace (y + 1 - 1)%Z with y by lia.
  destruct (Z.eqb_spec (y mod 4) 0), (Z.eqb_spec (y mod 100) 0), (Z.eqb_spec (y mod 400) 0);
    cbn [negb andb orb]; Z.to_euclidean_division_equations; lia.
Qed.

Lemma month_cases (m : Z) :
  (1 <= m <= 12)%Z ->
  (m = 1 \/ m = 2 \/ m = 3 \/ m = 4 \/ m = 5 \/ m = 6 \/ m = 7 \/ m = 8 \/ m = 9
   \/ m = 10 \/ m = 11 \/ m = 12)%Z.
Proof. lia. Qed.

(** Evaluate the sums over the months once the leap year is decided. *)
Ltac fold_months :=
  repeat match goal with
         | |- context [fold_left ?f ?l ?z] =>
             let v := eval vm_compute in (fold_left f l z) in
             change (fold_left f l z) with v
         end.

Lemma within_year (y m d : Z) :
  (1 <= m <= 12 -> 1 <= d <= days_in_month y m ->
   1 <= days_before_month y m + d <= 365 + (if is_leap y then 1 else 0))%Z.
Proof.
  intros Hm Hd. apply month_cases in Hm.
  repeat (destruct Hm as [->|Hm]); try subst m;
    unfold days_before_month, days_in_month in *; cbn in *;
    destruct (is_leap y); fold_months; lia.
Qed.

Lemma month_step (y m m' : Z) :
  (1 <= m -> m < m' -> m' <= 12 ->
   days_before_month y m + days_in_month y m <= days_before_month y m')%Z.
Proof.
  intros H1 H2 H3.
  assert (Hm : (1 <= m <= 12)%Z) by lia. assert (Hm' : (1 <= m' <= 12)%Z) by lia.
  apply month_cases in Hm, Hm'.
  repeat (destruct Hm as [->|Hm]); try subst m;
    repeat (destruct Hm' as [->|Hm']); try subst m'; try lia;
    unfold days_before_month, days_in_month; cbn; destruct (is_leap y); fold_months; lia.
Qed.

(** On calendar dates the ordinals compare as the dates do. *)
Lemma toordinal_compare (a b : date) :
  Shape.valid_date a = true -> Shape.valid_date b = true ->
  (toordinal a ?= toordinal b)%Z = date_compare a b.
Proof.
  unfold Shape.valid_date. intros Ha Hb.
  repeat (apply andb_prop in Ha as [Ha ?]). repeat (apply andb_prop in Hb as [Hb ?]).
  destruct a as [ya ma da], b as [yb mb db]; cbn [year month day] in *.
  assert (Hwa := within_year ya ma da ltac:(lia) ltac:(lia)).
  assert (Hwb := within_year yb mb db ltac:(lia) ltac:(lia)).
  unfold toordinal, date_compare; cbn [year month day].
  destruct (Z.compare_spec ya yb) as [->|Hy|Hy].
  - destruct (Z.compare_spec ma mb) as [->|Hm|Hm].
    + destruct (Z.compare_spec da db); [apply Z.compare_eq_iff | apply Z.compare_lt_iff
                                        | apply Z.compare_gt_iff]; lia.
    + apply Z.compare_lt_iff. pose proof (month_step yb ma mb). lia.
    + apply Z.compare_gt_iff. pose proof (month_step yb mb ma). lia.
  - apply Z.compare_lt_iff.
    pose proof (days_before_year_succ ya). pose proof (days_before_year_le (ya + 1) yb).
    lia.
  - apply Z.compare_gt_iff.
    pose proof (days_before_year_succ yb). pose proof (days_before_year_le (yb + 1) ya).
    lia.
Qed.

Lemma date_compare_eq (a b : date) : date_compare a b = Eq -> a = b.
Proof.
  unfold date_compare. destruct a as [ya ma da], b as [yb mb db]; cbn [year month day].
  destruct (Z.compare_spec ya yb); try discriminate.
  destruct (Z.compare_spec ma mb); try discriminate.
  destruct (Z.compare_spec da db); try discriminate.
  intros _. congruence.
Qed.

Lemma make_date_valid (y m d : Z) (x : date) :
  make_date y m d = Ok x -> Shape.valid_date x = true.
Proof.
  unfold make_date, Shape.valid_date.
  destruct (_ && _) eqn:H; [|discriminate].
  intros E. inversion E; subst. exact H.
Qed.

(** What [strptime] returns is a calendar date. *)
Lemma strptime_valid (s : str) (p : date) :
  strptime_ymd s = Ok p -> Shape.valid_date p = true.
Proof.
  unfold strptime_ymd.
  destruct (match_ymd s) as [[[[Y m] d] rest]|]; [|discriminate].
  destruct rest; [|discriminate].
  destruct (int Y); cbn [bind]; [|discriminate].
  destruct (int m); cbn [bind]; [|discriminate].
  destruct (int d); cbn [bind]; [|discriminate].
  apply make_date_valid.
Qed.

Lemma strptime_empty : strptime_ymd [] = Raise ValueError.
Proof. reflexivity. Qed.

(* ================================================================== *)
(** * Further properties of the sensor *)
(* ================================================================== *)

(** The first element of the comprehension's result is the first entry of
    the list that is not before today: the entries ahead of it parse to
    dates before today. *)
Lemma future_dates_first (dates : list str) (today : date) (v : str) (fut : list str) :
  future_dates dates today = Ok (v :: fut) ->
  exists pre post,
    dates = pre ++ v :: post
    /\ Forall (fun x => exists q, strptime_ymd x = Ok q /\ date_lt q today = true) pre
    /\ is_future today v = true.
Proof.
  revert v fut. induction dates as [|d rest IH]; intros v fut; cbn [future_dates].
  - discriminate.
  - destruct (strptime_ymd d) as [p|x] eqn:Hp; cbn [bind]; [|discriminate].
    destruct (future_dates rest today) as [f|x]; cbn [bind]; [|discriminate].
    destruct (date_ge p today) eqn:Hge; intros E; inversion E; subst.
    + exists [], rest. repeat split; [constructor|].
      unfold is_future. now rewrite Hp.
    + destruct (IH v fut eq_refl) as [pre [post [-> [Hpre Hv]]]].
      exists (d :: pre), post. repeat split; [|exact Hv].
      constructor; [|exact Hpre]. exists p. split; [exact Hp|].
      now rewrite date_lt_not_ge, Hge.
Qed.

(** The comprehension returns only when every entry parses. *)
Lemma future_dates_ok_well_formed (dates : list str) (today : date) (fut : list str) :
  future_dates dates today = Ok fut -> forallb Spec.well_formed dates = true.
Proof.
  revert fut. induction dates as [|d rest IH]; intros fut; cbn [future_dates forallb];
    [reflexivity|].
  unfold Spec.well_formed at 1.
  destruct (strptime_ymd d); cbn [bind]; [|discriminate].
  destruct (future_dates rest today) as [f|x]; cbn [bind]; [|discriminate].
  intros _. exact (IH f eq_refl).
Qed.

(** X12: when the sensor has a value, it is an entry of the delivery dates
    that parses to a date on or after today, and every entry before it in
    the list parses to a date before today. *)
Theorem native_value_is_first_future
    (d : Coordinator.Snapshot) (today : date) (v : str) :
  Sensor.native_value (Some d) today = Ok (Some v) ->
  exists pre post p,
    Coordinator.delivery_dates d = pre ++ v :: post
    /\ Forall (fun x => exists q, strptime_ymd x = Ok q /\ date_lt q today = true) pre
    /\ strptime_ymd v = Ok p
    /\ date_ge p today = true.
Proof.
  unfold Sensor.native_value.
  destruct (Coordinator.delivery_dates d) as [|x l]; [discriminate|].
  destruct (future_dates (x :: l) today) as [[|w f]|err] eqn:Hf; cbn [bind hd_error];
    try discriminate.
  intros E. inversion E; subst.
  destruct (future_dates_first _ _ _ _ Hf) as [pre [post [Heq [Hpre Hv]]]].
  unfold is_future in Hv. destruct (strptime_ymd v) as [p|] eqn:Hp; [|discriminate].
  exists pre, post, p. auto.
Qed.

Lemma native_value_is_first_future_witness :
  exists pre post p,
    Coordinator.delivery_dates Scenario.snapshot_E = pre ++ py "2025-06-05" :: post
    /\ Forall (fun x => exists q, strptime_ymd x = Ok q
                                  /\ date_lt q (mkdate 2025 6 3) = true) pre
    /\ strptime_ymd (py "2025-06-05") = Ok p
    /\ date_ge p (mkdate 2025 6 3) = true.
Proof.
  apply (native_value_is_first_future Scenario.snapshot_E (mkdate 2025 6 3)).
  reflexivity.
Defined.

(** X13: with delivery dates stored, the sensor's value is empty exactly
    when every entry parses and none is on or after today. *)
Theorem native_value_empty_iff (d : Coordinator.Snapshot) (today : date) :
  Sensor.native_value (Some d) today = Ok None
  <-> forallb (fun x => Spec.well_formed x && negb (is_future today x))
        (Coordinator.delivery_dates d) = true.
Proof.
  unfold Sensor.native_value.
  destruct (Coordinator.delivery_dates d) as [|x l]; [split; reflexivity|].
  set (dates := x :: l). split.
  - destruct (future_dates dates today) as [fut|err] eqn:Hf; cbn [bind]; [|discriminate].
    pose proof (future_dates_ok_well_formed _ _ _ Hf) as Hwf.
    rewrite (future_dates_well_formed _ today Hwf) in Hf.
    assert (Hfut : filter (is_future today) dates = fut) by congruence.
    destruct fut as [|w f]; cbn [hd_error]; [|discriminate]. intros _.
    apply forallb_forall. intros y Hy.
    rewrite (proj1 (forallb_forall _ _) Hwf y Hy). cbn [andb].
    destruct (is_future today y) eqn:Hfy; [|reflexivity].
    assert (Hin : In y (filter (is_future today) dates)) by (apply filter_In; auto).
    rewrite Hfut in Hin. contradiction.
  - intros H.
    assert (Hwf : forallb Spec.well_formed dates = true).
    { apply forallb_forall. intros y Hy.
      apply (proj1 (forallb_forall _ _) H) in Hy. now apply andb_prop in Hy. }
    rewrite (future_dates_well_formed _ today Hwf). cbn [bind].
    destruct (filter (is_future today) dates) as [|w f] eqn:Hfil; [reflexivity|].
    assert (Hin : In w (filter (is_future today) dates)) by (rewrite Hfil; now left).
    apply filter_In in Hin as [Hin Hw].
    apply (proj1 (forallb_forall _ _) H) in Hin. apply andb_prop in Hin as [_ Hn].
    rewrite Hw in Hn. discriminate.
Qed.

(** X14: the attributes agree with the state: they raise the exception the
    state raises; otherwise [next_scheduled_date] is the state,
    [all_delivery_dates] the stored list and [delivery_count] its length. *)
Theorem attributes_agree_with_state
    (postal : str) (d : Coordinator.Snapshot) (today : date) :
  match Sensor.native_value (Some d) today with
  | Raise x => Sensor.extra_state_attributes postal (Some d) today = Raise x
  | Ok v =>
      exists a,
        Sensor.extra_state_attributes postal (Some d) today = Ok (Some a)
        /\ Sensor.attr_next_scheduled_date a = v
        /\ Sensor.attr_all_delivery_dates a = Coordinator.delivery_dates d
        /\ Sensor.attr_delivery_count a = List.length (Coordinator.delivery_dates d)
        /\ Sensor.attr_last_scheduled_date a
           = match Coordinator.delivery_dates d with
             | [] => None
             | _ :: _ => Coordinator.last_delivery_date d
             end
  end.
Proof.
  unfold Sensor.native_value, Sensor.extra_state_attributes.
  destruct (Coordinator.delivery_dates d) as [|x l].
  - eexists. repeat split; reflexivity.
  - destruct (future_dates (x :: l) today) as [fut|err]; cbn [bind]; [|reflexivity].
    eexists. repeat split; reflexivity.
Qed.

(** X15: on a calendar day, [days_until_next] is present exactly with
    [next_scheduled_date], is the day difference to it, is never negative
    and is zero exactly when the next delivery is today. *)
Theorem days_until_next_is_nonnegative
    (postal : str) (d : Coordinator.Snapshot) (today : date) (a : Sensor.Attributes) :
  Shape.valid_date today = true ->
  Sensor.extra_state_attributes postal (Some d) today = Ok (Some a) ->
  match Sensor.attr_next_scheduled_date a with
  | None => Sensor.attr_days_until_next a = None
  | Some next =>
      exists p,
        strptime_ymd next = Ok p
        /\ Sensor.attr_days_until_next a = Some (date_sub_days p today)
        /\ (0 <= date_sub_days p today)%Z
        /\ (date_sub_days p today = 0%Z <-> p = today)
  end.
Proof.
  intros Htoday. unfold Sensor.extra_state_attributes.
  destruct (Coordinator.delivery_dates d) as [|x l].
  - intros E. inversion E. reflexivity.
  - destruct (future_dates (x :: l) today) as [[|w f]|err] eqn:Hf; cbn [bind hd_error];
      try discriminate.
    + intros E. inversion E. reflexivity.
    + intros E. inversion E; subst; clear E. cbn [Sensor.attr_next_scheduled_date
        Sensor.attr_days_until_next].
      destruct (future_dates_first _ _ _ _ Hf) as [_ [_ [_ [_ Hw]]]].
      unfold is_future in Hw.
      destruct (strptime_ymd w) as [p|] eqn:Hp; [|discriminate].
      exists p. split; [reflexivity|].
      assert (Hne : w <> []) by (intros ->; rewrite strptime_empty in Hp; discriminate).
      split; [destruct w; [now contradiction Hne | reflexivity]|].
      pose proof (toordinal_compare p today (strptime_valid _ _ Hp) Htoday) as Hc.
      unfold date_ge in Hw. unfold date_sub_days.
      destruct (date_compare p today) eqn:Hcmp; try discriminate.
      * apply Z.compare_eq_iff in Hc. split; [lia|].
        split; [intros _; now apply date_compare_eq | lia].
      * apply Z.compare_gt_iff in Hc. split; [lia|].
        split; [lia|]. intros ->.
        unfold date_compare in Hcmp. rewrite !Z.compare_refl in Hcmp. discriminate.
Qed.

Lemma days_until_next_is_nonnegative_witness :
  exists p,
    strptime_ymd (py "2025-06-01") = Ok p
    /\ Some 2%Z = Some (date_sub_days p Scenario.may_30)
    /\ (0 <= date_sub_days p Scenario.may_30)%Z
    /\ (date_sub_days p Scenario.may_30 = 0%Z <-> p = Scenario.may_30).
Proof.
  apply (days_until_next_is_nonnegative (py "00100") Scenario.snapshot_E Scenario.may_30
           (Sensor.mkAttributes (py "00100") (Some (py "2025-06-01")) None (Some 2%Z) 2
              [py "2025-06-01"; py "2025-06-05"] (Some Scenario.t_june_1)));
    reflexivity.
Defined.

(* ================================================================== *)
(** * Further properties of the config flow *)
(* ================================================================== *)

Lemma lstrip_spaces (ws : str) : forallb isspace ws = true -> lstrip ws = [].
Proof.
  induction ws as [|c r IH]; cbn [forallb lstrip]; [reflexivity|].
  intros H. apply andb_prop in H as [Hc Hr]. rewrite Hc. exact (IH Hr).
Qed.

Lemma lstrip_spaces_app (ws s : str) :
  forallb isspace ws = true -> lstrip (ws ++ s) = lstrip s.
Proof.
  induction ws as [|c r IH]; cbn [forallb lstrip app]; [reflexivity|].
  intros H. apply andb_prop in H as [Hc Hr]. rewrite Hc. exact (IH Hr).
Qed.

Lemma forallb_rev (A : Type) (f : A -> bool) (l : list A) :
  forallb f l = true -> forallb f (rev l) = true.
Proof.
  intros H. apply forallb_forall. intros x Hx. apply in_rev in Hx.
  exact (proj1 (forallb_forall f l) H x Hx).
Qed.

Lemma rstrip_app_spaces (s ws : str) :
  forallb isspace ws = true -> rstrip (s ++ ws) = rstrip s.
Proof.
  intros H. unfold rstrip. rewrite rev_app_distr.
  now rewrite (lstrip_spaces_app (rev ws) (rev s) (forallb_rev _ _ _ H)).
Qed.

Lemma strip_app_spaces (s ws : str) :
  forallb isspace ws = true -> strip (s ++ ws) = strip s.
Proof.
  intros H. unfold strip. induction s as [|c r IH]; cbn [app lstrip].
  - now rewrite (lstrip_spaces ws H).
  - destruct (isspace c); [exact IH|].
    exact (rstrip_app_spaces (c :: r) ws H).
Qed.

(** [strip] forgets whitespace around the string. *)
Lemma strip_surrounded (ws1 s ws2 : str) :
  forallb isspace ws1 = true -> forallb isspace ws2 = true ->
  strip (ws1 ++ s ++ ws2) = strip s.
Proof.
  intros H1 H2. rewrite <- (strip_app_spaces s ws2 H2).
  unfold strip. now rewrite (lstrip_spaces_app ws1 (s ++ ws2) H1).
Qed.

(** What a successful [try] block of [validate_input] has seen. *)
Lemma connect_ok (r : Api.reply) (dates : list str) :
  ConfigFlow.connect r = Ok dates ->
  dates <> []
  /\ exists code others,
       r = Api.Response 200
             (Api.EntryList (Api.mkentry (Some code) (Some dates) :: others)).
Proof.
  unfold ConfigFlow.connect.
  destruct r as [| |status b]; try discriminate.
  destruct (Z.eqb_spec status 200) as [->|]; cbn [negb]; [|discriminate].
  destruct b as [|[|[code dd] others]]; try discriminate.
  cbn [Api.postalCode Api.deliveryDates].
  destruct code as [code|]; [|destruct dd; discriminate].
  destruct dd as [[|x l]|]; try discriminate.
  intros E. inversion E; subst. split; [discriminate|eauto].
Qed.

Lemma validate_input_ok (input : str) (r : Api.reply) (info : ConfigFlow.Info) :
  ConfigFlow.validate_input input r = Ok info ->
  Spec.five isdecimal (strip input) = true
  /\ ConfigFlow.connect r = Ok (ConfigFlow.delivery_dates info)
  /\ ConfigFlow.postal_code info = strip input
  /\ ConfigFlow.title info = py "Posti " ++ strip input.
Proof.
  unfold ConfigFlow.validate_input. rewrite re_match_strip.
  destruct (Spec.five isdecimal (strip input)); cbn [negb]; [|discriminate].
  destruct (ConfigFlow.connect r) as [dd|[]]; try discriminate.
  intros E. inversion E; subst. repeat split; reflexivity.
Qed.

(** X16: when [validate_input] succeeds, the postal code it returns is the
    stripped input and is five decimal digits, the title is [Posti]
    followed by it, and the dates are the non-empty list of the first entry
    of a reply of status 200 that has a [postalCode]. *)
Theorem validate_input_success
    (input : str) (r : Api.reply) (info : ConfigFlow.Info) :
  ConfigFlow.validate_input input r = Ok info ->
  ConfigFlow.postal_code info = strip input
  /\ Spec.five isdecimal (ConfigFlow.postal_code info) = true
  /\ ConfigFlow.title info = py "Posti " ++ strip input
  /\ ConfigFlow.delivery_dates info <> []
  /\ exists code others,
       r = Api.Response 200
             (Api.EntryList
                (Api.mkentry (Some code) (Some (ConfigFlow.delivery_dates info)) :: others)).
Proof.
  intros H. destruct (validate_input_ok input r info H) as [H5 [Hc [Hp Ht]]].
  destruct (connect_ok r _ Hc) as [Hne Hr].
  rewrite Hp. auto.
Qed.

Lemma validate_input_success_witness :
  ConfigFlow.postal_code
    (ConfigFlow.mkInfo (py "Posti 00100") (py "00100") [py "2025-06-10"])
  = strip (py "  00100 ")
  /\ Spec.five isdecimal (py "00100") = true
  /\ py "Posti 00100" = py "Posti " ++ strip (py "  00100 ")
  /\ [py "2025-06-10"] <> []
  /\ exists code others,
       Scenario.reply_C
       = Api.Response 200
           (Api.EntryList (Api.mkentry (Some code) (Some [py "2025-06-10"]) :: others)).
Proof.
  apply (validate_input_success (py "  00100 ") Scenario.reply_C
           (ConfigFlow.mkInfo (py "Posti 00100") (py "00100") [py "2025-06-10"])).
  reflexivity.
Defined.

(** [validate_input] by cases on the format test and on the [try] block. *)
Lemma validate_input_cases (input : str) (r : Api.reply) :
  ConfigFlow.validate_input input r
  = if Spec.five isdecimal (strip input) then
      match ConfigFlow.connect r with
      | Ok dd => Ok (ConfigFlow.mkInfo (py "Posti " ++ strip input) (strip input) dd)
      | Raise ClientError => Raise CannotConnect
      | Raise _ => Raise UnknownError
      end
    else Raise InvalidPostalCode.
Proof.
  unfold ConfigFlow.validate_input. rewrite re_match_strip.
  now destruct (Spec.five isdecimal (strip input)).
Qed.

(** X17: [validate_input] never raises [NoData]; it raises [CannotConnect]
    exactly when the format is accepted and the request raises
    [aiohttp.ClientError]; the form is never shown with [no_data]. *)
Theorem validate_input_never_raises_NoData (input : str) (r : Api.reply) :
  ConfigFlow.validate_input input r <> Raise NoData
  /\ (ConfigFlow.validate_input input r = Raise CannotConnect
      <-> Spec.five isdecimal (strip input) = true /\ r = Api.RaisesClientError)
  /\ (forall now configured,
        ConfigFlow.async_step_user (Some input) r now configured
        <> ConfigFlow.ShowForm (Some (py "no_data"))).
Proof.
  pose proof (validate_input_cases input r) as Hcases.
  assert (Hclient : forall x, ConfigFlow.connect r = Raise x ->
                      x = ClientError -> r = Api.RaisesClientError).
  { unfold ConfigFlow.connect. intros x.
    destruct r as [| |status b]; [reflexivity | congruence |].
    destruct (negb (status =? 200)%Z); [congruence|].
    destruct b as [|[|[code dd] others]]; try congruence.
    cbn [Api.postalCode Api.deliveryDates].
    destruct code, dd as [[|y l]|]; congruence. }
  assert (Hno : ConfigFlow.validate_input input r <> Raise NoData).
  { rewrite Hcases. destruct (Spec.five isdecimal (strip input)); [|discriminate].
    destruct (ConfigFlow.connect r) as [dd|[]]; discriminate. }
  split; [exact Hno | split].
  - rewrite Hcases. destruct (Spec.five isdecimal (strip input)).
    + destruct (ConfigFlow.connect r) as [dd|x] eqn:Hx.
      * split; [discriminate|]. intros [_ ->]. discriminate.
      * split.
        -- intros H. split; [reflexivity|]. apply (Hclient x eq_refl).
           destruct x; try discriminate; reflexivity.
        -- intros [_ ->]. cbn in Hx. inversion Hx. reflexivity.
    + split; [discriminate | intros [H _]; discriminate].
  - intros now configured. unfold ConfigFlow.async_step_user.
    destruct (ConfigFlow.validate_input input r) as [info|x].
    + destruct configured; discriminate.
    + destruct x; try discriminate. now contradiction Hno.
Qed.

(** X18: for an accepted postal code, a reply whose status is not 200 makes
    [validate_input] raise [UnknownError], and the form is shown with
    [unknown]. *)
Theorem bad_status_reported_as_unknown
    (input : str) (status : Z) (b : Api.body) (now : datetime) (configured : bool) :
  Spec.five isdecimal (strip input) = true ->
  status <> 200%Z ->
  ConfigFlow.validate_input input (Api.Response status b) = Raise UnknownError
  /\ ConfigFlow.async_step_user (Some input) (Api.Response status b) now configured
     = ConfigFlow.ShowForm (Some (py "unknown")).
Proof.
  intros H5 Hs.
  assert (H : ConfigFlow.validate_input input (Api.Response status b) = Raise UnknownError).
  { rewrite validate_input_cases, H5. cbn [ConfigFlow.connect].
    destruct (Z.eqb_spec status 200); [contradiction|]. reflexivity. }
  split; [exact H|]. unfold ConfigFlow.async_step_user. now rewrite H.
Qed.

Lemma bad_status_reported_as_unknown_witness :
  ConfigFlow.validate_input (py "00100") Scenario.reply_D = Raise UnknownError
  /\ ConfigFlow.async_step_user (Some (py "00100")) Scenario.reply_D Scenario.t_june_1 false
     = ConfigFlow.ShowForm (Some (py "unknown")).
Proof.
  apply (bad_status_reported_as_unknown (py "00100") 500 Api.NotAList Scenario.t_june_1 false).
  - reflexivity.
  - discriminate.
Defined.

(** X19: whitespace around the input has no effect on [validate_input]. *)
Theorem validate_input_ignores_surrounding_whitespace
    (ws1 input ws2 : str) (r : Api.reply) :
  forallb isspace ws1 = true -> forallb isspace ws2 = true ->
  ConfigFlow.validate_input (ws1 ++ input ++ ws2) r = ConfigFlow.validate_input input r.
Proof.
  intros H1 H2. unfold ConfigFlow.validate_input.
  now rewrite (strip_surrounded ws1 input ws2 H1 H2).
Qed.

Lemma validate_input_ignores_surrounding_whitespace_witness :
  ConfigFlow.validate_input (py "  " ++ py "00100" ++ [9; 10]%N) Scenario.reply_C
  = ConfigFlow.validate_input (py "00100") Scenario.reply_C.
Proof.
  apply validate_input_ignores_surrounding_whitespace; reflexivity.
Defined.

(** X20: the flow creates an entry only for an input that is not already
    configured, with the stripped five-digit postal code, the title built
    from it, the non-empty dates of the reply and the current time as the
    seed. *)
Theorem entry_created_only_after_validation
    (user_input : option str) (r : Api.reply) (now : datetime) (configured : bool)
    (title code : str) (seed : Coordinator.InitialData) :
  ConfigFlow.async_step_user user_input r now configured
  = ConfigFlow.CreateEntry title code seed ->
  configured = false
  /\ exists input,
       user_input = Some input
       /\ code = strip input
       /\ Spec.five isdecimal code = true
       /\ title = py "Posti " ++ code
       /\ Coordinator.init_delivery_dates seed <> []
       /\ ConfigFlow.connect r = Ok (Coordinator.init_delivery_dates seed)
       /\ Coordinator.init_last_updated seed = now.
Proof.
  unfold ConfigFlow.async_step_user.
  destruct user_input as [input|]; [|discriminate].
  destruct (ConfigFlow.validate_input input r) as [info|x] eqn:Hv.
  - destruct configured; [discriminate|].
    intros E. inversion E; subst; clear E.
    destruct (validate_input_ok input r info Hv) as [H5 [Hc [Hp Ht]]].
    destruct (connect_ok r _ Hc) as [Hne _].
    split; [reflexivity|]. exists input. cbn [Coordinator.init_delivery_dates
      Coordinator.init_last_updated].
    rewrite Hp, Ht. auto 10.
  - destruct x; discriminate.
Qed.

Lemma entry_created_only_after_validation_witness :
  false = false
  /\ exists input,
       Some (py " 00100") = Some input
       /\ py "00100" = strip input
       /\ Spec.five isdecimal (py "00100") = true
       /\ py "Posti 00100" = py "Posti " ++ py "00100"
       /\ [py "2025-06-10"] <> []
       /\ ConfigFlow.connect Scenario.reply_C = Ok [py "2025-06-10"]
       /\ Scenario.t_june_2 = Scenario.t_june_2.
Proof.
  apply (entry_created_only_after_validation (Some (py " 00100")) Scenario.reply_C
           Scenario.t_june_2 false (py "Posti 00100") (py "00100")
           (Coordinator.mkInitialData [py "2025-06-10"] Scenario.t_june_2)).
  reflexivity.
Defined.

(* ================================================================== *)
(** * Further properties of the earlier coordinator *)
(* ================================================================== *)

Lemma legacy_state_cases (c : LegacyCoordinator.State) (e : LegacyCoordinator.Env) :
  LegacyCoordinator.state (LegacyCoordinator._async_update_data c e)
  = LegacyCoordinator.mkState (LegacyCoordinator.postal_code c) false false
      (Const.DEFAULT_UPDATE_INTERVAL
       + td_seconds
           (if LegacyCoordinator._skip_first_update c || LegacyCoordinator._first_update c
            then randint 0 1800 (LegacyCoordinator.entropy e)
            else randint (-120) 120 (LegacyCoordinator.entropy e)))%Z
      (LegacyCoordinator.data c) (LegacyCoordinator.last_update_success c).
Proof.
  unfold LegacyCoordinator._async_update_data.
  destruct c as [p f s u d l]; cbn [LegacyCoordinator._skip_first_update
    LegacyCoordinator._first_update LegacyCoordinator.postal_code LegacyCoordinator.data
    LegacyCoordinator.last_update_success].
  destruct s; [reflexivity|].
  destruct f; cbn [orb]; destruct (LegacyCoordinator.fetch e) as [n|[]]; reflexivity.
Qed.

(** X21: in the earlier coordinator, the cycle of a pending skip and the
    first fetching cycle schedule a wait between the base interval and the
    base interval plus thirty minutes, for every draw. *)
Theorem legacy_initial_offset_window
    (c : LegacyCoordinator.State) (e : LegacyCoordinator.Env) :
  LegacyCoordinator._skip_first_update c = true
  \/ LegacyCoordinator._first_update c = true ->
  Shape.within_initial_offset
    (LegacyCoordinator.update_interval
       (LegacyCoordinator.state (LegacyCoordinator._async_update_data c e))).
Proof.
  intros H. rewrite legacy_state_cases. cbn [LegacyCoordinator.update_interval].
  assert (Hb : LegacyCoordinator._skip_first_update c || LegacyCoordinator._first_update c
               = true).
  { destruct H as [-> | ->]; [reflexivity | apply orb_true_r]. }
  rewrite Hb.
  pose proof (randint_range 0 1800 (LegacyCoordinator.entropy e)) as Hr.
  unfold Shape.within_initial_offset, Const.DEFAULT_UPDATE_INTERVAL, td_hours, td_minutes,
    td_seconds. lia.
Qed.

Lemma legacy_initial_offset_window_witness :
  Shape.within_initial_offset
    (LegacyCoordinator.update_interval
       (LegacyCoordinator.state
          (LegacyCoordinator._async_update_data
             (LegacyCoordinator.__init__ (py "00100") None) Scenario.legacy_env))).
Proof.
  apply legacy_initial_offset_window. right. reflexivity.
Defined.

(** X22: in the earlier coordinator the initial offset is applied once: the
    wait scheduled by any second cycle lies in the jitter window, and a
    cycle leaves [data] alone. *)
Theorem legacy_offset_applies_once
    (c : LegacyCoordinator.State) (e1 e2 : LegacyCoordinator.Env) :
  Spec.within_jitter
    (LegacyCoordinator.update_interval
       (LegacyCoordinator.state
          (LegacyCoordinator._async_update_data
             (LegacyCoordinator.state (LegacyCoordinator._async_update_data c e1)) e2)))
  /\ LegacyCoordinator.data
       (LegacyCoordinator.state (LegacyCoordinator._async_update_data c e1))
     = LegacyCoordinator.data c.
Proof.
  rewrite (legacy_state_cases (LegacyCoordinator.state _) e2).
  rewrite (legacy_state_cases c e1).
  cbn [LegacyCoordinator.update_interval LegacyCoordinator._skip_first_update
       LegacyCoordinator._first_update LegacyCoordinator.data orb].
  split; [|reflexivity].
  pose proof (randint_range (-120) 120 (LegacyCoordinator.entropy e2)) as Hr.
  unfold Spec.within_jitter, Const.DEFAULT_UPDATE_INTERVAL, td_hours, td_minutes,
    td_seconds. lia.
Qed.
